(** * KKNT5: the UMKM record store and the session manager of [src/lib/supabase.ts]

    A shallow embedding of the two TypeScript modules of the repository:
    the record store [umkmService] (remote table or [localStorage]
    fallback) and the authentication context [AuthProvider] (login,
    register, logout, changePassword), followed by the properties that the
    specification states about them.

    Conventions.
    - JavaScript strings are [string]; [undefined]/[null] arguments are
      [None].
    - A business profile ([UMKM]) is a JavaScript object that the code
      merges with spreads of partial payloads: it is a finite map from
      property names to values, [gmap string val].
    - A user is built field by field: it is a record.
    - Every source of non-determinism is an explicit argument: the draws of
      [Math.random], the clock, the answer to [prompt], and what the remote
      service replies. *)

From Stdlib Require Import Ascii String.
From stdpp Require Import base decidable option list gmap strings sorting pretty fin.

Local Open Scope string_scope.

(** ** UUIDs *)

Definition is_digit (c : ascii) : bool :=
  let n := nat_of_ascii c in (48 <=? n)%nat && (n <=? 57)%nat.

(** [[a-f]] under the [i] flag: both cases. *)
Definition is_hex_letter (c : ascii) : bool :=
  let n := nat_of_ascii c in
  ((97 <=? n)%nat && (n <=? 102)%nat) || ((65 <=? n)%nat && (n <=? 70)%nat).

Definition is_hex (c : ascii) : bool := is_digit c || is_hex_letter c.

(** [[0-9a-f]{n}]: consume exactly [n] hexadecimal characters. *)
Fixpoint hex_run (n : nat) (s : string) : option string :=
  match n with
  | O => Some s
  | S n' =>
      match s with
      | String c s' => if is_hex c then hex_run n' s' else None
      | EmptyString => None
      end
  end.

Definition dash (s : string) : option string :=
  match s with
  | String c s' => if Ascii.eqb c "-" then Some s' else None
  | EmptyString => None
  end.

(** The pieces of the pattern: a counted run of hexadecimal characters or a
    literal hyphen. [^] and [$] anchor the match to the whole string. *)
Inductive piece := Hex (n : nat) | Dash.

Fixpoint match_pieces (ps : list piece) (s : string) : bool :=
  match ps with
  | [] => String.eqb s ""
  | Hex n :: ps' =>
      match hex_run n s with Some s' => match_pieces ps' s' | None => false end
  | Dash :: ps' =>
      match dash s with Some s' => match_pieces ps' s' | None => false end
  end.

(** [/^[0-9a-f]{8}-[0-9a-f]{4}-[0-9a-f]{4}-[0-9a-f]{4}-[0-9a-f]{12}$/i.test(s)] *)
Definition uuid_regex_test (s : string) : bool :=
  match_pieces [Hex 8; Dash; Hex 4; Dash; Hex 4; Dash; Hex 4; Dash; Hex 12] s.

(** [isValidUUID(str)]: [Boolean(str && regex.test(str))]; the empty string,
    [undefined] and [null] are falsy. *)
Definition isValidUUID (str : option string) : bool :=
  match str with
  | Some s => negb (String.eqb s "") && uuid_regex_test s
  | None => false
  end.

Definition hex_char (d : nat) : ascii :=
  match d with
  | 0 => "0" | 1 => "1" | 2 => "2" | 3 => "3" | 4 => "4" | 5 => "5"
  | 6 => "6" | 7 => "7" | 8 => "8" | 9 => "9" | 10 => "a" | 11 => "b"
  | 12 => "c" | 13 => "d" | 14 => "e" | _ => "f"
  end%char.

Fixpoint to_hex_go (fuel n : nat) (acc : string) : string :=
  match fuel with
  | O => acc
  | S fuel' =>
      let acc' := String (hex_char (n mod 16)) acc in
      if (n / 16 =? 0)%nat then acc' else to_hex_go fuel' (n / 16) acc'
  end.

(** [v.toString(16)] for a non-negative integer [v]. *)
Definition toString16 (v : nat) : string := to_hex_go (S v) v "".

(** [s.replace(/[xy]/g, f)]: the callback is called once per match, from left
    to right; [k] counts the matches already replaced. *)
Fixpoint replace_xy (f : ascii -> nat -> string) (k : nat) (s : string) : string :=
  match s with
  | EmptyString => EmptyString
  | String c s' =>
      if Ascii.eqb c "x" || Ascii.eqb c "y"
      then f c k ++ replace_xy f (S k) s'
      else String c (replace_xy f k s')
  end.

(** The source of randomness: [rnd k] is the value of
    [(Math.random() * 16) | 0] at the [k]-th draw of a call. [Math.random()]
    lies in [0, 1), so a draw is one of 0..15. *)
Definition Random := nat -> fin 16.

Definition uuid_template : string := "xxxxxxxx-xxxx-4xxx-yxxx-xxxxxxxxxxxx".

Definition generateUUID (rnd : Random) : string :=
  replace_xy
    (fun c k =>
       let r := fin_to_nat (rnd k) in
       let v := if Ascii.eqb c "x" then r else Nat.lor (Nat.land r 3) 8 in
       toString16 v)
    0 uuid_template.

(** [ensureValidUUID(id)] *)
Definition ensureValidUUID (rnd : Random) (id : option string) : string :=
  match id with
  | Some s => if isValidUUID (Some s) then s else generateUUID rnd
  | None => generateUUID rnd
  end.

(** ** Values, objects and users *)

(** The JSON values that occur in the stored objects. *)
Inductive val :=
| VStr (s : string)
| VNum (n : Z)
| VBool (b : bool)
| VNull.

#[global] Instance val_eq_dec : EqDecision val.
Proof. solve_decision. Defined.

(** [interface UMKM]: an object with optional properties. An absent key reads
    as [undefined]. *)
Abbreviation UMKM := (gmap string val).

(** JavaScript truthiness of a property read. *)
Definition truthy (v : option val) : bool :=
  match v with
  | Some (VStr s) => negb (String.eqb s "")
  | Some (VNum n) => negb (Z.eqb n 0)
  | Some (VBool b) => b
  | Some VNull | None => false
  end.

(** An optional string argument used as a condition ([if (adminRW)],
    [userId ? .. : ..]): absent and empty are both falsy. *)
Definition given (a : option string) : option string :=
  match a with
  | Some s => if String.eqb s "" then None else Some s
  | None => None
  end.

(** [o[k] === s] for a string [s]. *)
Definition prop_is (o : UMKM) (k s : string) : Prop := o !! k = Some (VStr s).

#[global] Instance prop_is_dec o k s : Decision (prop_is o k s).
Proof. unfold prop_is. apply _. Defined.

Inductive Role := role_admin | role_user.

#[global] Instance Role_eq_dec : EqDecision Role.
Proof. solve_decision. Defined.

(** [interface User] *)
Module User.
Record t := mk {
  id : string;
  username : string;
  name : string;
  role : Role;
  rw : option string;
  created_at : option string;
  must_change_password : option bool;
  last_password_change : option string   (* [None]: absent or [null] *)
}.

Definition set_id (v : string) (u : t) : t :=
  mk v (username u) (name u) (role u) (rw u) (created_at u)
     (must_change_password u) (last_password_change u).
Definition set_must_change_password (v : bool) (u : t) : t :=
  mk (id u) (username u) (name u) (role u) (rw u) (created_at u)
     (Some v) (last_password_change u).
Definition set_last_password_change (v : string) (u : t) : t :=
  mk (id u) (username u) (name u) (role u) (rw u) (created_at u)
     (must_change_password u) (Some v).
End User.

(** An element of the [registered_users] array: the user's properties and
    the plaintext [password] next to them. *)
Module Registered.
Record t := mk { user : User.t; password : string }.

Definition id (r : t) : string := User.id (user r).
Definition username (r : t) : string := User.username (user r).
Definition set_id (v : string) (r : t) : t := mk (User.set_id v (user r)) (password r).
End Registered.

(** ** The browser's [localStorage]

    Each key holds a JSON document; a missing key is read through
    [|| "[]"] or [|| "{}"], that is as the empty array or object. *)
Record LocalStorage := mkLocalStorage {
  ls_umkm : list UMKM;                       (* key ["umkm"] *)
  ls_registered_users : list Registered.t;   (* key ["registered_users"] *)
  ls_auth_user : option User.t;              (* key ["auth_user"] *)
  ls_admin_passwords : gmap string string    (* key ["admin_passwords"] *)
}.

Definition set_ls_umkm (l : list UMKM) (s : LocalStorage) : LocalStorage :=
  mkLocalStorage l (ls_registered_users s) (ls_auth_user s) (ls_admin_passwords s).
Definition set_ls_registered_users (l : list Registered.t) (s : LocalStorage) : LocalStorage :=
  mkLocalStorage (ls_umkm s) l (ls_auth_user s) (ls_admin_passwords s).
Definition set_ls_auth_user (u : option User.t) (s : LocalStorage) : LocalStorage :=
  mkLocalStorage (ls_umkm s) (ls_registered_users s) u (ls_admin_passwords s).
Definition set_ls_admin_passwords (m : gmap string string) (s : LocalStorage) : LocalStorage :=
  mkLocalStorage (ls_umkm s) (ls_registered_users s) (ls_auth_user s) m.

(** ** Exceptions and results *)

Inductive exn :=
| Error (message : string)            (* [new Error(message)] *)
| ReferenceError (what : string)      (* use of a global that does not exist *)
| PostgrestError (e : string).        (* the [error] of a reply, thrown as it is *)

Inductive result (A : Type) :=
| Return (a : A)
| Throw (x : exn).
Arguments Return {A} a.
Arguments Throw {A} x.

Definition NotFoundOrForbidden : exn :=
  Error "Data tidak ditemukan atau tidak memiliki akses".
Definition InvalidUserId : exn :=
  Error "User ID tidak valid untuk operasi Supabase".

(** ** The remote service

    The hosted backend is not part of the repository. The client addresses
    two tables through requests built with [from/select/eq/in/order/insert/
    update/delete/single]. The meaning given here to a request that the
    service honours is the one of the relational table described in the
    specification (select/filter/order, insert-returning-row,
    update-returning-row, delete); a request may instead be answered with an
    error, or the call may throw. *)

Record Database := mkDatabase {
  tbl_umkm : list UMKM;       (* table ["umkm"] *)
  tbl_users : list User.t     (* table ["users"] *)
}.

Inductive Filter :=
| FEq (column value : string)             (* [.eq(column, value)] *)
| FIn (column : string) (values : list string).   (* [.in(column, values)] *)

Definition holds (f : Filter) (row : UMKM) : bool :=
  match f with
  | FEq c v => bool_decide (prop_is row c v)
  | FIn c vs =>
      match row !! c with
      | Some (VStr s) => bool_decide (s ∈ vs)
      | _ => false
      end
  end.

Definition selected (fs : list Filter) (row : UMKM) : bool :=
  forallb (fun f => holds f row) fs.

(** The creation timestamp of a row, when it has one. *)
Definition created (row : UMKM) : option string :=
  match row !! "created_at" with
  | Some (VStr s) => Some s
  | _ => None
  end.

(** Order of timestamps; ISO-8601 strings of one format compare as the
    instants they denote. A missing timestamp counts as the greatest, as a
    null does in a descending sort. *)
Definition ts_le (a b : option string) : bool :=
  match a, b with
  | _, None => true
  | None, Some _ => false
  | Some s, Some t => String.leb s t
  end.

(** [x] may stand before [y] in [.order("created_at", { ascending: false })]. *)
Definition newest_first (x y : UMKM) : Prop := ts_le (created y) (created x) = true.

#[global] Instance newest_first_dec x y : Decision (newest_first x y).
Proof. unfold newest_first. apply _. Defined.

(** The reply of the service: [{ data, error }]. *)
Record Reply (A : Type) := mkReply { data : option A; error : option string }.
Arguments mkReply {A} data error.
Arguments data {A} r.
Arguments error {A} r.

(** What can go wrong with a request: the service answers with an error, or
    the awaited call throws. *)
Inductive Fault :=
| Refuse (e : string)
| Crash (x : exn).

Inductive Awaited (A : Type) :=
| Resolved (r : Reply A)
| Rejected (x : exn).
Arguments Resolved {A} r.
Arguments Rejected {A} x.

(** A request that reads. *)
Definition await {A} (flt : option Fault) (honoured : Reply A) : Awaited A :=
  match flt with
  | None => Resolved honoured
  | Some (Refuse e) => Resolved (mkReply None (Some e))
  | Some (Crash x) => Rejected x
  end.

(** A request that writes: the table changes only when it is honoured. *)
Definition serve {A} (flt : option Fault) (db : Database)
    (honoured : Reply A * Database) : Awaited A * Database :=
  match flt with
  | None => (Resolved (fst honoured), snd honoured)
  | Some (Refuse e) => (Resolved (mkReply None (Some e)), db)
  | Some (Crash x) => (Rejected x, db)
  end.

(** The error of [.single()] when the result is not exactly one row. *)
Definition not_single : string := "PGRST116".

(** Modelled from the spec: the table answering [from("umkm").select("*")]
    with the filters of the request and, when asked, the descending order on
    [created_at] (section 6, select/filter/order). *)
Definition db_select (fs : list Filter) (ordered : bool) (db : Database) : Reply (list UMKM) :=
  let rows := List.filter (selected fs) (tbl_umkm db) in
  mkReply (Some (if ordered then merge_sort newest_first rows else rows)) None.

(** Modelled from the spec: the same with [.single()], which succeeds on
    exactly one row. *)
Definition db_select_single (fs : list Filter) (db : Database) : Reply UMKM :=
  match List.filter (selected fs) (tbl_umkm db) with
  | [row] => mkReply (Some row) None
  | _ => mkReply None (Some not_single)
  end.

(** Modelled from the spec: the table ["users"] answering
    [from("users").select("id").eq("rw", rw)]. *)
Definition db_user_ids (rw : string) (db : Database) : Reply (list string) :=
  mkReply
    (Some (List.map User.id
             (List.filter (fun u => bool_decide (User.rw u = Some rw)) (tbl_users db))))
    None.

(** Modelled from the spec: [from("umkm").insert([row]).select().single()]
    returns the row as persisted (insert-returning-row); the table fills the
    identifier and the creation timestamp of a row that has none. *)
Definition db_insert (row : UMKM) (srv_id srv_now : string) (db : Database)
    : Reply UMKM * Database :=
  let stored := row ∪ {[ "id" := VStr srv_id; "created_at" := VStr srv_now ]} in
  (mkReply (Some stored) None, mkDatabase (stored :: tbl_umkm db) (tbl_users db)).

(** Modelled from the spec: [from("umkm").update(patch) ... .select().single()]
    (update-returning-row). The patch is merged into the rows selected;
    unless exactly one row is selected the request fails and the table stays
    as it was. *)
Definition db_update_single (patch : UMKM) (fs : list Filter) (db : Database)
    : Reply UMKM * Database :=
  match List.filter (selected fs) (tbl_umkm db) with
  | [row] =>
      (mkReply (Some (patch ∪ row)) None,
       mkDatabase
         (List.map (fun r => if selected fs r then patch ∪ r else r) (tbl_umkm db))
         (tbl_users db))
  | _ => (mkReply None (Some not_single), db)
  end.

(** Modelled from the spec: [from("umkm").delete() ...] removes the rows
    selected, however many, and reports no error. *)
Definition db_delete (fs : list Filter) (db : Database) : Reply unit * Database :=
  (mkReply None None,
   mkDatabase (List.filter (fun r => negb (selected fs r)) (tbl_umkm db)) (tbl_users db)).

(** ** The record store: [umkmService] *)

(** The clock at the time of a call: [Date.now()] and
    [new Date().toISOString()]. *)
Record Clock := mkClock { epoch_ms : N; iso : string }.

(** What the operations read and write: the browser storage and the remote
    tables. *)
Record World := mkWorld { storage : LocalStorage; remote : Database }.

Definition set_storage (s : LocalStorage) (w : World) : World := mkWorld s (remote w).
Definition set_remote (d : Database) (w : World) : World := mkWorld (storage w) d.

(** [u.id === id && u.user_id === userId] *)
Definition owned_by (id userId : string) (u : UMKM) : Prop :=
  prop_is u "id" id ∧ prop_is u "user_id" userId.

#[global] Instance owned_by_dec id userId u : Decision (owned_by id userId u).
Proof. unfold owned_by. apply _. Defined.

(** [rwUsers.includes(item.user_id)] *)
Definition includes_owner (rwUsers : list string) (item : UMKM) : bool :=
  match item !! "user_id" with
  | Some (VStr s) => bool_decide (s ∈ rwUsers)
  | _ => false
  end.

Section Service.

(** [hasSupabase]: both environment variables are set. *)
Variable hasSupabase : bool.
(** [typeof window !== "undefined"]: the code runs in a browser. *)
Variable window : bool.

(** [ls.all()] *)
Definition ls_all (s : LocalStorage) : list UMKM :=
  if window then ls_umkm s else [].

(** [ls.save(list)] *)
Definition ls_save (l : list UMKM) (s : LocalStorage) : LocalStorage :=
  if window then set_ls_umkm l s else s.

(** The awaited [query] of [getAll] and what is returned from it. *)
Definition getAll_run (fs : list Filter) (flt : option Fault) (db : Database)
    : result (list UMKM) :=
  match await flt (db_select fs true db) with
  | Rejected _ => Return []
  | Resolved r =>
      match error r with
      | Some _ => Return []
      | None => Return (default [] (data r))
      end
  end.

(** [getAll(userId?, adminRW?)]. [flt_users] and [flt_query] say what
    happens to the request on ["users"] and to the one on ["umkm"]. *)
Definition getAll (userId adminRW : option string)
    (flt_users flt_query : option Fault) (w : World) : result (list UMKM) :=
  if negb hasSupabase then
    let allData := ls_all (storage w) in
    match given adminRW with
    | Some rw =>
        if window then
          let users := ls_registered_users (storage w) in
          let rwUsers :=
            List.map Registered.id
              (List.filter
                 (fun u => bool_decide (User.rw (Registered.user u) = Some rw))
                 users) in
          Return (List.filter (includes_owner rwUsers) allData)
        else Throw (ReferenceError "localStorage")
    | None =>
        match given userId with
        | Some uid => Return (filter (fun item => prop_is item "user_id" uid) allData)
        | None => Return allData
        end
    end
  else
    match given adminRW with
    | Some rw =>
        match await flt_users (db_user_ids rw (remote w)) with
        | Rejected _ => Return []
        | Resolved r =>
            match error r with
            | Some _ => Return []
            | None =>
                match data r with
                | Some (u :: us) =>
                    getAll_run [FIn "user_id" (u :: us)] flt_query (remote w)
                | _ => Return []
                end
            end
        end
    | None =>
        match given userId with
        | Some uid =>
            if negb (isValidUUID (Some uid)) then Return []
            else getAll_run [FEq "user_id" uid] flt_query (remote w)
        | None => getAll_run [] flt_query (remote w)
        end
    end.

(** [create(payload, userId)]. [srv_id] and [srv_now] are the identifier
    and the timestamp that the table would assign. *)
Definition create (payload : UMKM) (userId : string) (rnd : Random) (now : Clock)
    (flt : option Fault) (srv_id srv_now : string) (w : World)
    : result (option UMKM) * World :=
  let validUserId := ensureValidUUID rnd (Some userId) in
  let dataWithUser := <["user_id" := VStr validUserId]> payload in
  if negb hasSupabase then
    let list := ls_all (storage w) in
    let newItem := <["id" := VStr (pretty (epoch_ms now))]> dataWithUser in
    (Return (Some newItem), set_storage (ls_save (newItem :: list) (storage w)) w)
  else
    let tanggal_daftar :=
      if truthy (dataWithUser !! "tanggal_daftar")
      then default VNull (dataWithUser !! "tanggal_daftar")
      else VStr (iso now) in
    let row := <["tanggal_daftar" := tanggal_daftar]> dataWithUser in
    match serve flt (remote w) (db_insert row srv_id srv_now (remote w)) with
    | (Rejected x, db) => (Throw x, set_remote db w)
    | (Resolved r, db) =>
        match error r with
        | Some e => (Throw (PostgrestError e), set_remote db w)
        | None => (Return (data r), set_remote db w)
        end
    end.

(** [update(id, payload, userId)] *)
Definition update (id : string) (payload : UMKM) (userId : string) (now : Clock)
    (flt : option Fault) (w : World) : result (option UMKM) * World :=
  if negb hasSupabase then
    let list := ls_all (storage w) in
    match list_find (owned_by id userId) list with
    | None => (Throw NotFoundOrForbidden, w)
    | Some (itemIndex, item) =>
        let item' := payload ∪ item in
        (Return (Some item'),
         set_storage (ls_save (<[itemIndex := item']> list) (storage w)) w)
    end
  else if negb (isValidUUID (Some userId)) then (Throw InvalidUserId, w)
  else
    let patch := <["updated_at" := VStr (iso now)]> payload in
    match serve flt (remote w)
            (db_update_single patch [FEq "id" id; FEq "user_id" userId] (remote w)) with
    | (Rejected x, db) => (Throw x, set_remote db w)
    | (Resolved r, db) =>
        match error r with
        | Some e => (Throw (PostgrestError e), set_remote db w)
        | None => (Return (data r), set_remote db w)
        end
    end.

(** [delete(id, userId)] *)
Definition delete (id userId : string) (flt : option Fault) (w : World)
    : result bool * World :=
  if negb hasSupabase then
    let list := ls_all (storage w) in
    let filteredList := filter (fun u => ¬ owned_by id userId u) list in
    if (length filteredList =? length list)%nat then (Throw NotFoundOrForbidden, w)
    else (Return true, set_storage (ls_save filteredList (storage w)) w)
  else if negb (isValidUUID (Some userId)) then (Throw InvalidUserId, w)
  else
    match serve flt (remote w)
            (db_delete [FEq "id" id; FEq "user_id" userId] (remote w)) with
    | (Rejected x, db) => (Throw x, set_remote db w)
    | (Resolved r, db) =>
        match error r with
        | Some e => (Throw (PostgrestError e), set_remote db w)
        | None => (Return true, set_remote db w)
        end
    end.

(** [getById(id, userId?)] *)
Definition getById (id : string) (userId : option string) (flt : option Fault)
    (w : World) : result (option UMKM) :=
  if negb hasSupabase then
    let item := snd <$> list_find (fun u => prop_is u "id" id) (ls_all (storage w)) in
    match given userId, item with
    | Some uid, Some it =>
        if bool_decide (prop_is it "user_id" uid) then Return (Some it)
        else Return None
    | _, _ => Return item
    end
  else
    match given userId with
    | Some uid =>
        if negb (isValidUUID (Some uid)) then Return None
        else
          match await flt (db_select_single [FEq "id" id; FEq "user_id" uid] (remote w)) with
          | Rejected _ => Return None
          | Resolved r =>
              match error r with
              | Some _ => Return None
              | None => Return (data r)
              end
          end
    | None =>
        match await flt (db_select_single [FEq "id" id] (remote w)) with
        | Rejected _ => Return None
        | Resolved r =>
            match error r with
            | Some _ => Return None
            | None => Return (data r)
            end
        end
    end.

End Service.

(** ** The session manager: [AuthProvider] *)

(** The two entries of [ADMIN_USERS]. *)
Definition ketua_rw01 : User.t :=
  User.mk "550e8400-e29b-41d4-a716-446655440001" "admin" "Ketua RW 01" role_admin
    (Some "01") (Some "2024-01-01T00:00:00Z") (Some true) None.
Definition ketua_rw04 : User.t :=
  User.mk "550e8400-e29b-41d4-a716-446655440004" "admin" "Ketua RW 04" role_admin
    (Some "04") (Some "2024-01-01T00:00:00Z") (Some true) None.

Definition ADMIN_USERS : list User.t := [ketua_rw01; ketua_rw04].

Definition DEFAULT_ADMIN_PASSWORD : string := "admin".

(** [interface RegisterData] *)
Module RegisterData.
Record t := mk { username : string; password : string; name : string; rw : string }.
End RegisterData.

(** The state of the provider: the React state [user] and the browser
    storage. *)
Record Session := mkSession { user : option User.t; browser : LocalStorage }.

(** [{ success, message }] *)
Record Outcome := mkOutcome { success : bool; message : string }.

(** [adminPasswords[id]] read as a condition: a stored non-empty string. *)
Definition custom_password (adminPasswords : gmap string string) (id : string)
    : option string :=
  match adminPasswords !! id with
  | Some p => if String.eqb p "" then None else Some p
  | None => None
  end.

(** [setUser(u); localStorage.setItem("auth_user", JSON.stringify(u))] *)
Definition sign_in (u : User.t) (s : Session) : Session :=
  mkSession (Some u) (set_ls_auth_user (Some u) (browser s)).

(** The second half of [login]: the scan of [registered_users]. *)
Definition login_registered (username password : string) (rnd : Random)
    (s : Session) : bool * Session :=
  let users := ls_registered_users (browser s) in
  match
    list_find
      (fun u => Registered.username u = username ∧ Registered.password u = password)
      users
  with
  | Some (found, foundUser) =>
      if negb (isValidUUID (Some (Registered.id foundUser))) then
        (* [foundUser] is the element of [users] itself: giving it a new
           [id] changes the array at [found] *)
        let foundUser' := Registered.set_id (generateUUID rnd) foundUser in
        let users' := <[found := foundUser']> users in
        let saved :=
          match list_find (fun u => Registered.username u = username) users' with
          | Some (userIndex, _) =>
              set_ls_registered_users (<[userIndex := foundUser']> users') (browser s)
          | None => browser s
          end in
        (true, sign_in (Registered.user foundUser') (mkSession (user s) saved))
      else (true, sign_in (Registered.user foundUser) s)
  | None => (false, s)
  end.

(** [login(username, password)]; [rwChoice] is what [prompt] returns when it
    is called ([None]: the dialog was dismissed). *)
Definition login (username password : string) (rwChoice : option string)
    (rnd : Random) (s : Session) : bool * Session :=
  if String.eqb username "admin" then
    if String.eqb password DEFAULT_ADMIN_PASSWORD then
      let selectedRW :=
        match rwChoice with
        | Some c =>
            if String.eqb c "1" then Some "01"
            else if String.eqb c "2" then Some "04"
            else None
        | None => None
        end in
      match selectedRW with
      | None => (false, s)
      | Some selected =>
          match list_find (fun a => User.rw a = Some selected) ADMIN_USERS with
          | Some (_, adminUser) =>
              match custom_password (ls_admin_passwords (browser s)) (User.id adminUser) with
              | Some _ => (false, s)
              | None => (true, sign_in adminUser s)
              end
          | None => login_registered username password rnd s
          end
      end
    else
      match
        list_find
          (fun a =>
             custom_password (ls_admin_passwords (browser s)) (User.id a) = Some password)
          ADMIN_USERS
      with
      | Some (_, a) => (true, sign_in (User.set_must_change_password false a) s)
      | None => login_registered username password rnd s
      end
  else login_registered username password rnd s.

(** The object [newUser] that [register] builds and appends. *)
Definition newUser (userData : RegisterData.t) (rnd : Random) (now : Clock) : Registered.t :=
  Registered.mk
    (User.mk (generateUUID rnd) (RegisterData.username userData)
       (RegisterData.name userData) role_user
       (Some (RegisterData.rw userData)) (Some (iso now)) None None)
    (RegisterData.password userData).

(** [register(userData)] *)
Definition register (userData : RegisterData.t) (rnd : Random) (now : Clock)
    (s : Session) : Outcome * Session :=
  if String.eqb (RegisterData.username userData) "admin" then
    (mkOutcome false "Username tidak tersedia", s)
  else
    let users := ls_registered_users (browser s) in
    match
      list_find (fun u => Registered.username u = RegisterData.username userData) users
    with
    | Some _ => (mkOutcome false "Username sudah digunakan", s)
    | None =>
        (mkOutcome true "Registrasi berhasil! Silakan login.",
         mkSession (user s)
           (set_ls_registered_users (users ++ [newUser userData rnd now]) (browser s)))
    end.

(** [logout()] *)
Definition logout (s : Session) : Session :=
  mkSession None (set_ls_auth_user None (browser s)).

(** [users[userIndex].password = newPassword;
     users[userIndex].last_password_change = ...] *)
Definition rotate (newPassword stamp : string) (r : Registered.t) : Registered.t :=
  Registered.mk (User.set_last_password_change stamp (Registered.user r)) newPassword.

(** [changePassword(oldPassword, newPassword)] *)
Definition changePassword (oldPassword newPassword : string) (now : Clock)
    (s : Session) : Outcome * Session :=
  match user s with
  | None => (mkOutcome false "User tidak ditemukan", s)
  | Some u =>
      match User.role u with
      | role_admin =>
          let adminPasswords := ls_admin_passwords (browser s) in
          let currentPassword :=
            default DEFAULT_ADMIN_PASSWORD (custom_password adminPasswords (User.id u)) in
          if negb (String.eqb oldPassword currentPassword) then
            (mkOutcome false "Password lama tidak benar", s)
          else if (String.length newPassword <? 6)%nat then
            (mkOutcome false "Password baru minimal 6 karakter", s)
          else if String.eqb oldPassword newPassword then
            (mkOutcome false "Password baru harus berbeda dari password lama", s)
          else
            let adminPasswords' := <[User.id u := newPassword]> adminPasswords in
            let updatedUser :=
              User.set_last_password_change (iso now)
                (User.set_must_change_password false u) in
            (mkOutcome true "Password berhasil diubah",
             sign_in updatedUser
               (mkSession (user s) (set_ls_admin_passwords adminPasswords' (browser s))))
      | role_user =>
          let users := ls_registered_users (browser s) in
          match list_find (fun r => Registered.id r = User.id u) users with
          | None => (mkOutcome false "User tidak ditemukan", s)
          | Some (userIndex, entry) =>
              if negb (String.eqb oldPassword (Registered.password entry)) then
                (mkOutcome false "Password lama tidak benar", s)
              else if (String.length newPassword <? 6)%nat then
                (mkOutcome false "Password baru minimal 6 karakter", s)
              else if String.eqb oldPassword newPassword then
                (mkOutcome false "Password baru harus berbeda dari password lama", s)
              else
                (mkOutcome true "Password berhasil diubah",
                 mkSession (user s)
                   (set_ls_registered_users
                      (<[userIndex := rotate newPassword (iso now) entry]> users)
                      (browser s)))
          end
      end
  end.

(** *** Sequences of calls *)

Inductive Call :=
| CLogin (username password : string) (rwChoice : option string) (rnd : Random)
| CRegister (userData : RegisterData.t) (rnd : Random) (now : Clock)
| CLogout
| CChangePassword (oldPassword newPassword : string) (now : Clock).

Definition call (c : Call) (s : Session) : Session :=
  match c with
  | CLogin username password rwChoice rnd => snd (login username password rwChoice rnd s)
  | CRegister userData rnd now => snd (register userData rnd now s)
  | CLogout => logout s
  | CChangePassword oldPassword newPassword now =>
      snd (changePassword oldPassword newPassword now s)
  end.

Definition calls (cs : list Call) (s : Session) : Session :=
  foldl (fun s c => call c s) s cs.

(** The provider right after it is mounted on a browser whose registry is
    empty and that holds no session; [overrides] is whatever the key
    ["admin_passwords"] holds. *)
Definition fresh (records : list UMKM) (overrides : gmap string string) : Session :=
  mkSession None (mkLocalStorage records [] None overrides).

(** *** The effect run when the provider is mounted

    [generateUUID] is called once for every identifier that is replaced; the
    [k]-th of these calls draws from [rnds k]. The stored documents are typed
    here, so the [catch] around [JSON.parse] of ["auth_user"], which removes
    a document that does not parse, has no counterpart. The flag
    [isLoading], which the effect clears at its end, is not part of
    [Session]. *)

(** The [users.map(...)] of [migrateUsersToUUID]; the number returned is the
    count of identifiers generated so far, starting from [k]. *)
Fixpoint migrate_map (rnds : nat -> Random) (k : nat) (users : list Registered.t)
    : list Registered.t * nat :=
  match users with
  | [] => ([], k)
  | u :: rest =>
      if negb (isValidUUID (Some (Registered.id u))) then
        let '(rest', k') := migrate_map rnds (S k) rest in
        (Registered.set_id (generateUUID (rnds k)) u :: rest', k')
      else
        let '(rest', k') := migrate_map rnds k rest in
        (u :: rest', k')
  end.

(** [migrateUsersToUUID()]: the registry is written back when [needsUpdate]
    was set, that is when at least one identifier was generated. *)
Definition migrateUsersToUUID (rnds : nat -> Random) (s : Session) : Session * nat :=
  let users := ls_registered_users (browser s) in
  let '(updatedUsers, k) := migrate_map rnds 0 users in
  let needsUpdate := negb (k =? 0)%nat in
  (if needsUpdate
   then mkSession (user s) (set_ls_registered_users updatedUsers (browser s))
   else s,
   k).

(** [migrateCurrentUser()], drawing from [rnds k]. *)
Definition migrateCurrentUser (rnds : nat -> Random) (k : nat) (s : Session) : Session :=
  match ls_auth_user (browser s) with
  | None => s
  | Some userData =>
      if negb (isValidUUID (Some (User.id userData))) then
        let userData' := User.set_id (generateUUID (rnds k)) userData in
        let stored := set_ls_auth_user (Some userData') (browser s) in
        let users := ls_registered_users stored in
        let updated :=
          match
            list_find (fun u => Registered.username u = User.username userData') users
          with
          | Some (userIndex, entry) =>
              set_ls_registered_users
                (<[userIndex := Registered.set_id (User.id userData') entry]> users) stored
          | None => stored
          end in
        mkSession (Some userData') updated
      else mkSession (Some userData) (browser s)
  end.

(** The effect: [migrateUsersToUUID(); migrateCurrentUser()]. *)
Definition mount (rnds : nat -> Random) (s : Session) : Session :=
  let '(s1, k) := migrateUsersToUUID rnds s in
  migrateCurrentUser rnds k s1.

(** * Vocabulary of the properties *)

(** ** Predicates and auxiliary functions *)

(** Replacing every [x] and [y] by one character each. *)
Fixpoint fill (d : ascii -> nat -> ascii) (k : nat) (s : string) : string :=
  match s with
  | EmptyString => EmptyString
  | String c s' =>
      if Ascii.eqb c "x" || Ascii.eqb c "y"
      then String (d c k) (fill d (S k) s')
      else String c (fill d k s')
  end.

(** What a write throws when its request meets the fault [ft]. *)
Definition raised (ft : Fault) : exn :=
  match ft with
  | Refuse e => PostgrestError e
  | Crash x => x
  end.

(** The user names of the registry, in order. *)
Definition names (s : Session) : list string :=
  Registered.username <$> ls_registered_users (browser s).

(** [u] is one of the two predefined accounts, up to the two fields that keep
    track of password changes. *)
Definition predefined (u : User.t) : Prop :=
  exists a, a ∈ ADMIN_USERS
    /\ User.id u = User.id a /\ User.username u = User.username a
    /\ User.name u = User.name a /\ User.role u = User.role a
    /\ User.rw u = User.rw a /\ User.created_at u = User.created_at a.

(** [u] is the current session: the React state or the stored copy. *)
Definition held (s : Session) (u : User.t) : Prop :=
  user s = Some u \/ ls_auth_user (browser s) = Some u.

(** Every entry of the registry is an ordinary user. *)
Definition ordinary (s : Session) : Prop :=
  Forall (fun r => User.role (Registered.user r) = role_user)
    (ls_registered_users (browser s)).

(** The invariant of the provider: the registry holds ordinary users only,
    and an admin session is a predefined account. *)
Definition inv (s : Session) : Prop :=
  ordinary s
  /\ (forall u, held s u -> User.role u = role_admin -> predefined u).

(** The properties that identify a user; [changePassword] touches none. *)
Definition same_identity (u v : User.t) : Prop :=
  User.id v = User.id u /\ User.username v = User.username u
  /\ User.name v = User.name u /\ User.role v = User.role u
  /\ User.rw v = User.rw u /\ User.created_at v = User.created_at u.

(** The registry after a change differs from the one before in at most one
    entry: one that carries the caller's identifier, and only in its
    password and its time of last change. *)
Definition one_credential_rotated (u : User.t) (new stamp : string)
    (before after : list Registered.t) : Prop :=
  length after = length before
  /\ (forall i r, before !! i = Some r -> Registered.id r <> User.id u ->
        after !! i = Some r)
  /\ (exists i, forall j, j <> i -> after !! j = before !! j)
  /\ (forall i r r', before !! i = Some r -> after !! i = Some r' ->
        r' = r \/ r' = rotate new stamp r).

(** The character that [generateUUID] puts in place of the [k]-th [x] or [y]
    of the template. *)
Definition uuid_digit (rnd : Random) (c : ascii) (k : nat) : ascii :=
  let r := fin_to_nat (rnd k) in
  hex_char (if Ascii.eqb c "x" then r else Nat.lor (Nat.land r 3) 8).

(** The number of characters that a pattern matches. *)
Definition piece_length (p : piece) : nat :=
  match p with
  | Hex n => n
  | Dash => 1
  end.

Definition pieces_length (ps : list piece) : nat :=
  foldr (fun p n => piece_length p + n) 0 ps.

(** The three keys of the browser storage that belong to the session
    manager are the same in [w] and [w']. *)
Definition same_accounts (w w' : World) : Prop :=
  ls_registered_users (storage w') = ls_registered_users (storage w)
  /\ ls_auth_user (storage w') = ls_auth_user (storage w)
  /\ ls_admin_passwords (storage w') = ls_admin_passwords (storage w).

(** What a write of the record store may change: in local mode the key
    ["umkm"] of the browser and nothing remote, in remote mode the table
    ["umkm"] and nothing in the browser. *)
Definition confined (hasSupabase : bool) (w w' : World) : Prop :=
  same_accounts w w'
  /\ tbl_users (remote w') = tbl_users (remote w)
  /\ (hasSupabase = false -> remote w' = remote w)
  /\ (hasSupabase = true -> storage w' = storage w).

(** The React state and the copy of the session in the browser agree. *)
Definition in_step (s : Session) : Prop := user s = ls_auth_user (browser s).

(** The registry is in order: user names are pairwise different, none is
    the reserved [admin], and every identifier is a well-formed UUID. *)
Definition tidy (s : Session) : Prop :=
  NoDup (names s)
  /\ ("admin" ∉ names s)
  /\ Forall (fun r => isValidUUID (Some (Registered.id r)) = true)
       (ls_registered_users (browser s)).

(** ** Sample data *)

(** Two owners. *)
Definition budi : string := "11111111-1111-4111-8111-111111111111".
Definition sari : string := "22222222-2222-4222-8222-222222222222".

(** The payload of the example of the specification, and Budi's shop as a
    stored record. *)
Definition toko_bunga : UMKM :=
  {[ "nama_usaha" := VStr "Toko Bunga"; "pemilik" := VStr "Budi";
     "jenis_usaha" := VStr "Retail"; "status" := VStr "active" ]}.
Definition toko_bunga_row : UMKM :=
  <["id" := VStr "b1"]> (<["user_id" := VStr budi]> toko_bunga).

Definition empty_storage : LocalStorage := mkLocalStorage [] [] None ∅.

(** The shop in the remote table, and the shop in the browser. *)
Definition hosted : World := mkWorld empty_storage (mkDatabase [toko_bunga_row] []).
Definition offline : World :=
  mkWorld (mkLocalStorage [toko_bunga_row] [] None ∅) (mkDatabase [] []).

(** Two records in the browser whose creation timestamps ascend. *)
Definition january : UMKM :=
  <["created_at" := VStr "2024-01-01T00:00:00.000Z"]> toko_bunga_row.
Definition june : UMKM :=
  <["created_at" := VStr "2024-06-01T00:00:00.000Z"]>
    (<["id" := VStr "b2"]> (<["user_id" := VStr sari]> toko_bunga)).
Definition backlog : World :=
  mkWorld (mkLocalStorage [january; june] [] None ∅) (mkDatabase [] []).

Definition noon : Clock := mkClock 1717243200000 "2024-06-01T12:00:00.000Z".

(** A generator that always draws 7. *)
Definition sevens : Random := fun _ => 7%fin.

(** A provider just mounted on an empty browser, and the same after Sari
    has registered. *)
Definition mounted : Session := mkSession None empty_storage.
Definition sari_data : RegisterData.t := RegisterData.mk "sari" "melati99" "Sari" "04".
Definition budi_data : RegisterData.t := RegisterData.mk "budi" "rahasia1" "Budi" "01".
Definition with_sari : Session := snd (register sari_data sevens noon mounted).

(** Sari logged in, and the admin of RW 01 logged in. *)
Definition sari_user : User.t := Registered.user (newUser sari_data sevens noon).
Definition sari_session : Session := snd (login "sari" "melati99" None sevens with_sari).
Definition ketua_session : Session := sign_in ketua_rw01 mounted.

(** A neighbourhood in which Sari, of RW 04, is registered and owns a shop,
    held both in the browser and in the remote tables. *)
Definition sari_shop : UMKM :=
  <["id" := VStr "b3"]> (<["user_id" := VStr (User.id sari_user)]> toko_bunga).
Definition kampung : World :=
  mkWorld
    (mkLocalStorage [sari_shop; toko_bunga_row] (ls_registered_users (browser with_sari))
       None ∅)
    (mkDatabase [sari_shop; toko_bunga_row] [sari_user]).

(** A browser left by a version of the application that numbered its users:
    Budi is registered and logged in under the identifier ["17"]. *)
Definition budi_legacy : Registered.t :=
  Registered.mk
    (User.mk "17" "budi" "Budi" role_user (Some "01") (Some "2023-05-01T08:00:00.000Z")
       None None)
    "rahasia1".
Definition legacy : Session :=
  mkSession None
    (mkLocalStorage [] [newUser sari_data sevens noon; budi_legacy]
       (Some (Registered.user budi_legacy)) ∅).

(** Generators for the effect: the [k]-th identifier is drawn as all [k]s. *)
Definition draws : nat -> Random :=
  fun k _ => match k with 0 => 1%fin | 1 => 2%fin | _ => 3%fin end.

(** * Properties *)

(** ** Generated identifiers are well formed *)

Lemma toString16_digit (v : nat) :
  v < 16 -> toString16 v = String (hex_char v) "".
Proof.
  intros Hv. unfold toString16. cbn [to_hex_go].
  rewrite (Nat.mod_small v 16), (Nat.div_small v 16) by lia. reflexivity.
Qed.

Lemma hex_char_is_hex (v : nat) : is_hex (hex_char v) = true.
Proof. do 16 (destruct v as [|v]; [reflexivity|]). reflexivity. Qed.

Lemma variant_digit (r : nat) : Nat.lor (Nat.land r 3) 8 < 16.
Proof.
  assert (H : Nat.land r 3 < 4).
  { change 3 with (Nat.ones 2). rewrite Nat.land_ones. apply Nat.mod_upper_bound. lia. }
  remember (Nat.land r 3) as m eqn:Em. clear Em.
  do 4 (destruct m as [|m]; [cbn; lia|]). lia.
Qed.

Lemma replace_xy_fill f d :
  (forall c k, f c k = String (d c k) "") ->
  forall s k, replace_xy f k s = fill d k s.
Proof.
  intros Hf s. induction s as [|c s IH]; intros k; cbn; [reflexivity|].
  destruct (Ascii.eqb c "x" || Ascii.eqb c "y").
  - rewrite Hf, IH. reflexivity.
  - rewrite IH. reflexivity.
Qed.

Lemma fill_template_valid d :
  (forall c k, is_hex (d c k) = true) ->
  isValidUUID (Some (fill d 0 uuid_template)) = true.
Proof.
  intros Hd. unfold isValidUUID, uuid_regex_test, uuid_template.
  cbn [fill Ascii.eqb Bool.eqb orb String.eqb negb andb].
  repeat (cbn [match_pieces hex_run dash Ascii.eqb Bool.eqb];
          change (is_hex "4"%char) with true; rewrite ?Hd).
  reflexivity.
Qed.

Lemma generateUUID_valid (rnd : Random) : isValidUUID (Some (generateUUID rnd)) = true.
Proof.
  unfold generateUUID.
  rewrite (replace_xy_fill _
    (fun c k =>
       let r := fin_to_nat (rnd k) in
       hex_char (if Ascii.eqb c "x" then r else Nat.lor (Nat.land r 3) 8))).
  - apply fill_template_valid. intros c k. apply hex_char_is_hex.
  - intros c k. cbn zeta. apply toString16_digit.
    destruct (Ascii.eqb c "x"); [apply fin_to_nat_lt | apply variant_digit].
Qed.

Lemma ensureValidUUID_valid rnd id : isValidUUID (Some (ensureValidUUID rnd id)) = true.
Proof.
  destruct id as [s|]; cbn [ensureValidUUID]; [|apply generateUUID_valid].
  destruct (isValidUUID (Some s)) eqn:E; [exact E | apply generateUUID_valid].
Qed.

Lemma ensureValidUUID_keeps rnd userId :
  isValidUUID (Some userId) = true -> ensureValidUUID rnd (Some userId) = userId.
Proof. intros H. cbn [ensureValidUUID]. rewrite H. reflexivity. Qed.

Lemma ensureValidUUID_replaces rnd userId :
  isValidUUID (Some userId) = false ->
  ensureValidUUID rnd (Some userId) = generateUUID rnd.
Proof. intros H. cbn [ensureValidUUID]. rewrite H. reflexivity. Qed.

(** ** The record store *)

(** The owner written by [create] into the object it stores or submits. *)
Lemma create_local_returns window payload userId rnd now flt srv_id srv_now w :
  fst (create false window payload userId rnd now flt srv_id srv_now w)
  = Return (Some (<["id" := VStr (pretty (epoch_ms now))]>
                    (<["user_id" := VStr (ensureValidUUID rnd (Some userId))]> payload))).
Proof. reflexivity. Qed.

Lemma create_remote_honoured window payload userId rnd now srv_id srv_now w :
  exists item,
    fst (create true window payload userId rnd now None srv_id srv_now w)
    = Return (Some item)
    /\ item !! "user_id" = Some (VStr (ensureValidUUID rnd (Some userId))).
Proof.
  unfold create. cbn [negb serve db_insert fst snd error data].
  eexists. split; [reflexivity|].
  apply lookup_union_Some_l.
  rewrite lookup_insert_ne by discriminate. apply lookup_insert_eq.
Qed.

(** C3. [create] with an owner identifier that is not a well-formed UUID
    succeeds and returns a record owned by a freshly generated, well-formed
    UUID, different from the identifier supplied; with a well-formed owner
    identifier the record returned is owned by it. In remote mode this is
    what happens when the service honours the insertion. *)
Theorem create_owner_is_valid_uuid
    hasSupabase window payload userId rnd now flt srv_id srv_now w :
  (hasSupabase = true -> flt = None) ->
  exists item,
    fst (create hasSupabase window payload userId rnd now flt srv_id srv_now w)
    = Return (Some item)
    /\ (isValidUUID (Some userId) = false ->
        item !! "user_id" = Some (VStr (generateUUID rnd))
        /\ isValidUUID (Some (generateUUID rnd)) = true
        /\ generateUUID rnd <> userId)
    /\ (isValidUUID (Some userId) = true ->
        item !! "user_id" = Some (VStr userId)).
Proof.
  intros Hflt.
  assert (Hitem : exists item,
    fst (create hasSupabase window payload userId rnd now flt srv_id srv_now w)
    = Return (Some item)
    /\ item !! "user_id" = Some (VStr (ensureValidUUID rnd (Some userId)))).
  { destruct hasSupabase.
    - rewrite (Hflt eq_refl). apply create_remote_honoured.
    - rewrite create_local_returns. eexists. split; [reflexivity|].
      rewrite lookup_insert_ne by discriminate. apply lookup_insert_eq. }
  destruct Hitem as (item & Hret & Howner).
  exists item. split; [exact Hret|]. split; intros Hvalid.
  - rewrite (ensureValidUUID_replaces _ _ Hvalid) in Howner.
    split; [exact Howner|]. split; [apply generateUUID_valid|].
    intros Heq. pose proof (generateUUID_valid rnd) as Hg.
    rewrite Heq in Hg. congruence.
  - rewrite (ensureValidUUID_keeps _ _ Hvalid) in Howner. exact Howner.
Qed.

Lemma create_owner_is_valid_uuid_witness :
  (true = true -> @None Fault = None)
  /\ exists item,
      fst (create true true toko_bunga "not-a-uuid" sevens noon None
             "b9" "2024-06-01T12:00:01.000Z" hosted)
      = Return (Some item)
      /\ (isValidUUID (Some "not-a-uuid") = false ->
          item !! "user_id" = Some (VStr (generateUUID sevens))
          /\ isValidUUID (Some (generateUUID sevens)) = true
          /\ generateUUID sevens <> "not-a-uuid")
      /\ (isValidUUID (Some "not-a-uuid") = true ->
          item !! "user_id" = Some (VStr "not-a-uuid")).
Proof.
  split; [reflexivity|].
  apply (create_owner_is_valid_uuid true true toko_bunga "not-a-uuid" sevens noon None
           "b9" "2024-06-01T12:00:01.000Z" hosted).
  reflexivity.
Defined.

(** *** Writes scoped by identifier and owner *)

Lemma filter_all {A} (P : A -> Prop) `{forall x, Decision (P x)} (l : list A) :
  Forall P l -> filter P l = l.
Proof.
  induction 1 as [|x l Hx _ IH]; [reflexivity|].
  rewrite filter_cons_True by exact Hx. rewrite IH. reflexivity.
Qed.

(** Local mode: when no stored record matches both the identifier and the
    owner, [update] raises [NotFoundOrForbidden] and stores nothing. *)
Lemma update_local_mismatch window id payload userId now flt w :
  Forall (fun u => ~ owned_by id userId u) (ls_all window (storage w)) ->
  update false window id payload userId now flt w = (Throw NotFoundOrForbidden, w).
Proof.
  intros Hnone. unfold update. cbn [negb].
  rewrite (proj2 (list_find_None _ _) Hnone). reflexivity.
Qed.

(** Local mode: the same for [delete]. *)
Lemma delete_local_mismatch window id userId flt w :
  Forall (fun u => ~ owned_by id userId u) (ls_all window (storage w)) ->
  delete false window id userId flt w = (Throw NotFoundOrForbidden, w).
Proof.
  intros Hnone. unfold delete. cbn [negb].
  rewrite (filter_all _ _ Hnone), Nat.eqb_refl. reflexivity.
Qed.

(** Remote mode: an owner identifier that is not a UUID is rejected before
    any request is made. *)
Lemma update_remote_invalid_owner window id payload userId now flt w :
  isValidUUID (Some userId) = false ->
  update true window id payload userId now flt w = (Throw InvalidUserId, w).
Proof. intros H. unfold update. cbn [negb]. rewrite H. reflexivity. Qed.

Lemma delete_remote_invalid_owner window id userId flt w :
  isValidUUID (Some userId) = false ->
  delete true window id userId flt w = (Throw InvalidUserId, w).
Proof. intros H. unfold delete. cbn [negb]. rewrite H. reflexivity. Qed.

Lemma world_eta w : mkWorld (storage w) (remote w) = w.
Proof. destruct w. reflexivity. Qed.

(** Remote mode: an honoured [update] that selects no row raises the error
    of [.single()] and leaves the table as it was. *)
Lemma update_remote_mismatch window id payload userId now w :
  isValidUUID (Some userId) = true ->
  List.filter (selected [FEq "id" id; FEq "user_id" userId]) (tbl_umkm (remote w)) = [] ->
  update true window id payload userId now None w
  = (Throw (PostgrestError not_single), w).
Proof.
  intros Hv Hsel. unfold update, db_update_single. cbn [negb]. rewrite Hv. cbn [negb].
  rewrite Hsel. cbn. unfold set_remote. rewrite world_eta. reflexivity.
Qed.

(** Remote mode: an honoured [delete] returns [true], whatever it selects. *)
Lemma delete_remote_honoured window id userId w :
  isValidUUID (Some userId) = true ->
  fst (delete true window id userId None w) = Return true.
Proof. intros Hv. unfold delete. cbn [negb]. rewrite Hv. reflexivity. Qed.

(** C1. In remote mode [delete] has no check of its own: Sari deleting
    Budi's record, a request that the service honours by removing the zero
    rows it selects, returns [true] where the local path raises
    [NotFoundOrForbidden]. No stored record is modified. *)
Theorem delete_remote_foreign_owner_returns_true :
  toko_bunga_row ∈ tbl_umkm (remote hosted)
  /\ prop_is toko_bunga_row "id" "b1"
  /\ prop_is toko_bunga_row "user_id" budi
  /\ budi <> sari
  /\ delete true true "b1" sari None hosted = (Return true, hosted)
  /\ delete false true "b1" sari None offline = (Throw NotFoundOrForbidden, offline).
Proof.
  split; [apply list_elem_of_here|].
  split; [reflexivity|]. split; [reflexivity|]. split; [discriminate|].
  split; vm_compute; reflexivity.
Qed.

(** *** The modification timestamp *)

(** Remote mode: the patch submitted by [update] carries the time of the
    call, so the row returned by an honoured request has it. *)
Lemma update_remote_stamps window id payload userId now w row :
  isValidUUID (Some userId) = true ->
  List.filter (selected [FEq "id" id; FEq "user_id" userId]) (tbl_umkm (remote w)) = [row] ->
  exists item,
    fst (update true window id payload userId now None w) = Return (Some item)
    /\ item !! "updated_at" = Some (VStr (iso now)).
Proof.
  intros Hv Hsel. unfold update, db_update_single. cbn [negb]. rewrite Hv. cbn [negb].
  rewrite Hsel. cbn. eexists. split; [reflexivity|].
  apply lookup_union_Some_l. apply lookup_insert_eq.
Qed.

(** Local mode: [update] merges the payload into the record and nothing
    else; [updated_at] is whatever the payload or the old record had. *)
Lemma update_local_merges window id payload userId now flt w i old :
  list_find (owned_by id userId) (ls_all window (storage w)) = Some (i, old) ->
  fst (update false window id payload userId now flt w) = Return (Some (payload ∪ old)).
Proof. intros Hfind. unfold update. cbn [negb]. rewrite Hfind. reflexivity. Qed.

(** C8. In local mode a successful [update] does not set [updated_at]:
    Budi renaming his shop at noon gets back, and stores, a record without
    a modification timestamp. *)
Theorem update_local_leaves_updated_at_unset :
  exists item,
    update false true "b1" {[ "nama_usaha" := VStr "Toko Bunga Budi" ]} budi noon None offline
    = (Return (Some item),
       mkWorld (mkLocalStorage [item] [] None ∅) (mkDatabase [] []))
    /\ item !! "nama_usaha" = Some (VStr "Toko Bunga Budi")
    /\ item !! "updated_at" = None
    /\ item !! "updated_at" <> Some (VStr (iso noon)).
Proof.
  eexists. split; [vm_compute; reflexivity|].
  split; [reflexivity|]. split; [reflexivity|]. discriminate.
Qed.

(** *** Errors reported by the remote service *)

Lemma getAll_run_returns fs flt db : exists l, getAll_run fs flt db = Return l.
Proof.
  unfold getAll_run. destruct flt as [[e|x]|]; cbn; eauto.
Qed.

Lemma getAll_run_fault fs ft db : getAll_run fs (Some ft) db = Return [].
Proof. destruct ft; reflexivity. Qed.

(** Remote mode: [getAll] never throws. *)
Lemma getAll_remote_returns window userId adminRW flt_users flt_query w :
  exists l, getAll true window userId adminRW flt_users flt_query w = Return l.
Proof.
  unfold getAll. cbn [negb].
  destruct (given adminRW) as [rw|].
  - destruct flt_users as [[e|x]|]; cbn; eauto.
    destruct (List.map _ _); eauto using getAll_run_returns.
  - destruct (given userId) as [uid|]; [|apply getAll_run_returns].
    destruct (negb _); eauto using getAll_run_returns.
Qed.

(** Remote mode: [getById] never throws. *)
Lemma getById_remote_returns window id userId flt w :
  exists o, getById true window id userId flt w = Return o.
Proof.
  unfold getById. cbn [negb].
  destruct (given userId) as [uid|].
  - destruct (negb _); eauto. destruct flt as [[e|x]|]; cbn; eauto.
    destruct (error _); eauto.
  - destruct flt as [[e|x]|]; cbn; eauto. destruct (error _); eauto.
Qed.

(** C5. In remote mode, a request that meets an error (the service replies
    with one, or the call throws) makes [getAll] return the empty list and
    [getById] return null, and neither ever throws; [create], [update] and
    [delete] throw that error to the caller and leave the tables as they
    were. ([update] and [delete] issue a request only for an owner
    identifier that is a UUID.) *)
Theorem remote_errors_absorbed_by_reads_raised_by_writes
    window (ft : Fault) (w : World) (owner : string) :
  isValidUUID (Some owner) = true ->
  (forall userId adminRW flt_users,
      getAll true window userId adminRW flt_users (Some ft) w = Return [])
  /\ (forall userId adminRW rw flt_query,
      given adminRW = Some rw ->
      getAll true window userId adminRW (Some ft) flt_query w = Return [])
  /\ (forall userId adminRW flt_users flt_query,
      exists l, getAll true window userId adminRW flt_users flt_query w = Return l)
  /\ (forall id userId, getById true window id userId (Some ft) w = Return None)
  /\ (forall id userId flt, exists o, getById true window id userId flt w = Return o)
  /\ (forall payload userId rnd now srv_id srv_now,
      create true window payload userId rnd now (Some ft) srv_id srv_now w
      = (Throw (raised ft), w))
  /\ (forall id payload now,
      update true window id payload owner now (Some ft) w = (Throw (raised ft), w))
  /\ (forall id, delete true window id owner (Some ft) w = (Throw (raised ft), w)).
Proof.
  intros Hv. repeat split.
  - intros userId adminRW flt_users. unfold getAll. cbn [negb].
    destruct (given adminRW) as [rw|].
    + destruct flt_users as [[e|x]|]; cbn; try reflexivity.
      destruct (List.map _ _); [reflexivity | apply getAll_run_fault].
    + destruct (given userId) as [uid|]; [|apply getAll_run_fault].
      destruct (negb _); [reflexivity | apply getAll_run_fault].
  - intros userId adminRW rw flt_query Hrw. unfold getAll. cbn [negb].
    rewrite Hrw. destruct ft; reflexivity.
  - intros. apply getAll_remote_returns.
  - intros id userId. unfold getById. cbn [negb].
    destruct (given userId) as [uid|]; [destruct (negb _)|]; destruct ft; reflexivity.
  - intros. apply getById_remote_returns.
  - intros. unfold create. cbn [negb].
    destruct ft; cbn; unfold set_remote; rewrite world_eta; reflexivity.
  - intros. unfold update. cbn [negb]. rewrite Hv. cbn [negb].
    destruct ft; cbn; unfold set_remote; rewrite world_eta; reflexivity.
  - intros. unfold delete. cbn [negb]. rewrite Hv. cbn [negb].
    destruct ft; cbn; unfold set_remote; rewrite world_eta; reflexivity.
Qed.

Lemma remote_errors_absorbed_by_reads_raised_by_writes_witness :
  isValidUUID (Some budi) = true
  /\ getAll true true None None None (Some (Refuse "timeout")) hosted = Return []
  /\ getById true true "b1" (Some budi) (Some (Refuse "timeout")) hosted = Return None
  /\ create true true toko_bunga budi sevens noon (Some (Refuse "timeout"))
       "b9" "2024-06-01T12:00:01.000Z" hosted
     = (Throw (PostgrestError "timeout"), hosted)
  /\ update true true "b1" toko_bunga budi noon (Some (Refuse "timeout")) hosted
     = (Throw (PostgrestError "timeout"), hosted)
  /\ delete true true "b1" budi (Some (Refuse "timeout")) hosted
     = (Throw (PostgrestError "timeout"), hosted).
Proof.
  assert (Hv : isValidUUID (Some budi) = true) by reflexivity.
  destruct (remote_errors_absorbed_by_reads_raised_by_writes
              true (Refuse "timeout") hosted budi Hv)
    as (Hall & _ & _ & Hone & _ & Hcreate & Hupdate & Hdelete).
  split; [exact Hv|]. split; [apply Hall|]. split; [apply Hone|].
  split; [apply Hcreate|]. split; [apply Hupdate | apply Hdelete].
Defined.

(** *** Listing without a filter *)

Lemma string_leb_trans (a b c : string) :
  String.leb a b = true -> String.leb b c = true -> String.leb a c = true.
Proof.
  unfold String.leb. revert b c.
  induction a as [|x a IH]; intros [|y b] [|z c]; cbn; try congruence.
  unfold Ascii.compare.
  destruct (N.compare_spec (N_of_ascii x) (N_of_ascii y)) as [Exy|Lxy|Gxy];
    destruct (N.compare_spec (N_of_ascii y) (N_of_ascii z)) as [Eyz|Lyz|Gyz];
    try congruence.
  - rewrite Exy, Eyz, N.compare_refl. apply IH.
  - intros _ _. rewrite Exy. rewrite (proj2 (N.compare_lt_iff _ _) Lyz). reflexivity.
  - intros _ _. rewrite <- Eyz. rewrite (proj2 (N.compare_lt_iff _ _) Lxy). reflexivity.
  - intros _ _. rewrite (proj2 (N.compare_lt_iff _ _) (N.lt_trans _ _ _ Lxy Lyz)).
    reflexivity.
Qed.

Lemma ts_le_trans a b c : ts_le a b = true -> ts_le b c = true -> ts_le a c = true.
Proof.
  destruct a as [a|], b as [b|], c as [c|]; cbn; try congruence.
  apply string_leb_trans.
Qed.

Lemma ts_le_total a b : ts_le a b = true \/ ts_le b a = true.
Proof.
  destruct a as [a|], b as [b|]; cbn; auto. apply String.leb_total.
Qed.

#[global] Instance newest_first_trans : Transitive newest_first.
Proof. intros x y z Hxy Hyz. unfold newest_first in *. eapply ts_le_trans; eauto. Qed.

#[global] Instance newest_first_total : Total newest_first.
Proof. intros x y. unfold newest_first. apply ts_le_total. Qed.

Lemma select_all rows : List.filter (selected []) rows = rows.
Proof.
  induction rows as [|r rows IH]; cbn; [reflexivity|]. rewrite IH. reflexivity.
Qed.

(** Remote mode: the unfiltered listing the service is asked for is the whole
    table, newest first. *)
Lemma getAll_remote_unfiltered window flt_users w :
  exists l,
    getAll true window None None flt_users None w = Return l
    /\ l ≡ₚ tbl_umkm (remote w)
    /\ StronglySorted newest_first l.
Proof.
  unfold getAll, getAll_run, db_select. cbn. rewrite select_all.
  eexists. split; [reflexivity|]. split.
  - apply merge_sort_Permutation.
  - apply (StronglySorted_merge_sort newest_first).
Qed.

(** Local mode: the unfiltered listing is the stored array as it is. *)
Lemma getAll_local_unfiltered window flt_users flt_query w :
  getAll false window None None flt_users flt_query w
  = Return (ls_all window (storage w)).
Proof. reflexivity. Qed.

(** Local mode: [create] puts the new record in front of the stored ones. *)
Lemma create_local_prepends payload userId rnd now flt srv_id srv_now w :
  exists item,
    fst (create false true payload userId rnd now flt srv_id srv_now w)
    = Return (Some item)
    /\ ls_all true
         (storage (snd (create false true payload userId rnd now flt srv_id srv_now w)))
       = item :: ls_all true (storage w).
Proof. eexists. split; reflexivity. Qed.

(** Such a store is one that the local operations produce: both owners
    write a creation timestamp into their record with [update]. *)
Example backlog_reachable :
  let start :=
    mkWorld (mkLocalStorage
               [toko_bunga_row; <["id" := VStr "b2"]> (<["user_id" := VStr sari]> toko_bunga)]
               [] None ∅) (mkDatabase [] []) in
  let w1 := snd (update false true "b1"
                   {[ "created_at" := VStr "2024-01-01T00:00:00.000Z" ]} budi noon None start) in
  let w2 := snd (update false true "b2"
                   {[ "created_at" := VStr "2024-06-01T00:00:00.000Z" ]} sari noon None w1) in
  w2 = backlog.
Proof. vm_compute. reflexivity. Qed.

(** C4, as stated, fails in local mode: the listing is the stored array in
    its stored order, here the older record before the newer one. *)
Lemma getAll_local_not_newest_first :
  getAll false true None None None None backlog = Return [january; june]
  /\ created january = Some "2024-01-01T00:00:00.000Z"
  /\ created june = Some "2024-06-01T00:00:00.000Z"
  /\ ~ Sorted newest_first [january; june].
Proof.
  split; [reflexivity|]. split; [reflexivity|]. split; [reflexivity|].
  intros Hs. inversion Hs as [|? ? _ Hhd]; subst.
  inversion Hhd as [|? ? Hlt]; subst. vm_compute in Hlt. discriminate.
Qed.

(** C4, amended. Without a filter, [getAll] in remote mode returns every row
    of the table ordered by creation timestamp, newest first, when the
    service honours the request, and the empty list when it does not; in
    local mode it returns the stored array as it is, in which [create] puts
    each new record first. *)
Theorem getAll_unfiltered window flt_users flt_query w :
  (exists l,
      getAll true window None None flt_users None w = Return l
      /\ l ≡ₚ tbl_umkm (remote w)
      /\ StronglySorted newest_first l)
  /\ (forall ft, getAll true window None None flt_users (Some ft) w = Return [])
  /\ getAll false window None None flt_users flt_query w
     = Return (ls_all window (storage w))
  /\ (forall payload userId rnd now flt srv_id srv_now,
      exists item,
        fst (create false true payload userId rnd now flt srv_id srv_now w)
        = Return (Some item)
        /\ getAll false true None None flt_users flt_query
             (snd (create false true payload userId rnd now flt srv_id srv_now w))
           = Return (item :: ls_all true (storage w))).
Proof.
  split; [apply getAll_remote_unfiltered|].
  split; [intros ft; apply getAll_run_fault|].
  split; [reflexivity|].
  intros. eexists. split; reflexivity.
Qed.

(** ** The session manager *)

(** C6. [changePassword(p, p)] returns [{ success: false }] in every state of
    the provider, with or without a session and whatever the role, and
    leaves the session and the storage exactly as they were. *)
Theorem changePassword_same_password_fails (p : string) (now : Clock) (s : Session) :
  success (fst (changePassword p p now s)) = false
  /\ snd (changePassword p p now s) = s.
Proof.
  unfold changePassword.
  destruct (user s) as [u|]; [|split; reflexivity].
  destruct (User.role u).
  - destruct (negb _); [split; reflexivity|].
    destruct (_ <? _)%nat; [split; reflexivity|].
    rewrite String.eqb_refl. split; reflexivity.
  - destruct (list_find _ _) as [[userIndex entry]|]; [|split; reflexivity].
    destruct (negb _); [split; reflexivity|].
    destruct (_ <? _)%nat; [split; reflexivity|].
    rewrite String.eqb_refl. split; reflexivity.
Qed.

(** *** Password overrides of the predefined accounts *)

Lemma custom_password_insert m id p k :
  custom_password (<[id := p]> m) k
  = if decide (id = k) then (if String.eqb p "" then None else Some p)
    else custom_password m k.
Proof.
  unfold custom_password. rewrite lookup_insert. destruct (decide (id = k)); reflexivity.
Qed.

Lemma short_is_empty (p : string) : (String.length p <? 6)%nat = false -> String.eqb p "" = false.
Proof. destruct p; [discriminate | reflexivity]. Qed.

(** A successful [changePassword] of a privileged session records an
    override for the identifier of that session. *)
Lemma changePassword_admin_records old new now s u :
  user s = Some u -> User.role u = role_admin ->
  success (fst (changePassword old new now s)) = true ->
  custom_password (ls_admin_passwords (browser (snd (changePassword old new now s))))
    (User.id u) = Some new.
Proof.
  intros Hu Hrole. unfold changePassword. rewrite Hu, Hrole.
  destruct (negb _); [discriminate|].
  destruct (_ <? _)%nat eqn:Hlen; [discriminate|].
  destruct (String.eqb old new); [discriminate|]. intros _. cbn.
  rewrite custom_password_insert, decide_True by reflexivity.
  rewrite (short_is_empty _ Hlen). reflexivity.
Qed.

(** Once an account has an override, every later call leaves it with one. *)
Lemma override_persists_call c s id :
  custom_password (ls_admin_passwords (browser s)) id <> None ->
  custom_password (ls_admin_passwords (browser (call c s))) id <> None.
Proof.
  intros Hset. destruct c as [username password rwChoice rnd|userData rnd now| |old new now];
    cbn [call].
  - unfold login, login_registered.
    repeat (match goal with
            | |- context [match ?x with _ => _ end] => destruct x
            end; cbn; try exact Hset).
  - unfold register.
    repeat (match goal with
            | |- context [match ?x with _ => _ end] => destruct x
            end; cbn; try exact Hset).
  - exact Hset.
  - unfold changePassword.
    destruct (user s) as [u|]; [|exact Hset].
    destruct (User.role u).
    + destruct (negb _); [exact Hset|].
      destruct (_ <? _)%nat eqn:Hlen; [exact Hset|].
      destruct (String.eqb old new); [exact Hset|]. cbn.
      rewrite custom_password_insert. destruct (decide _); [|exact Hset].
      rewrite (short_is_empty _ Hlen). discriminate.
    + destruct (list_find _ _) as [[userIndex entry]|]; [|exact Hset].
      destruct (negb _); [exact Hset|].
      destruct (_ <? _)%nat; [exact Hset|].
      destruct (String.eqb old new); exact Hset.
Qed.

Lemma override_persists cs s id :
  custom_password (ls_admin_passwords (browser s)) id <> None ->
  custom_password (ls_admin_passwords (browser (calls cs s))) id <> None.
Proof.
  revert s. induction cs as [|c cs IH]; intros s Hset; [exact Hset|].
  cbn. apply IH. apply override_persists_call. exact Hset.
Qed.

Lemma find_admin_rw01 :
  list_find (fun a => User.rw a = Some "01") ADMIN_USERS = Some (0, ketua_rw01).
Proof. vm_compute. reflexivity. Qed.

Lemma find_admin_rw04 :
  list_find (fun a => User.rw a = Some "04") ADMIN_USERS = Some (1, ketua_rw04).
Proof. vm_compute. reflexivity. Qed.

(** [login("admin", "admin")] once the account is selected: the override, if
    there is one, decides. *)
Lemma login_default choice a rnd s :
  (choice, a) ∈ [("1", ketua_rw01); ("2", ketua_rw04)] ->
  login "admin" "admin" (Some choice) rnd s
  = match custom_password (ls_admin_passwords (browser s)) (User.id a) with
    | Some _ => (false, s)
    | None => (true, sign_in a s)
    end.
Proof.
  intros Hin. apply list_elem_of_In in Hin.
  destruct Hin as [E|[E|[]]]; inversion E; subst; clear E;
    unfold login, DEFAULT_ADMIN_PASSWORD;
    cbn [String.eqb Ascii.eqb Bool.eqb].
  - rewrite find_admin_rw01. reflexivity.
  - rewrite find_admin_rw04. reflexivity.
Qed.

(** C2. [login("admin", "admin")] with an account selected whose password
    was never changed succeeds and makes that predefined admin the session.
    After a successful [changePassword] of a session with that identity,
    [login("admin", "admin")] selecting the same account returns [false]
    and changes nothing, immediately and after any further calls. *)
Theorem admin_default_login_until_override (choice : string) (a : User.t) rnd (s : Session) :
  (choice, a) ∈ [("1", ketua_rw01); ("2", ketua_rw04)] ->
  ls_admin_passwords (browser s) !! User.id a = None ->
  login "admin" "admin" (Some choice) rnd s = (true, sign_in a s)
  /\ user (sign_in a s) = Some a
  /\ User.role a = role_admin
  /\ (forall old new now s1 u cs rnd',
        user s1 = Some u -> User.role u = role_admin -> User.id u = User.id a ->
        success (fst (changePassword old new now s1)) = true ->
        let s2 := calls cs (snd (changePassword old new now s1)) in
        login "admin" "admin" (Some choice) rnd' s2 = (false, s2)).
Proof.
  intros Hin Hnone. split; [|split; [reflexivity|split]].
  - rewrite (login_default choice a) by exact Hin.
    unfold custom_password. rewrite Hnone. reflexivity.
  - apply list_elem_of_In in Hin.
    destruct Hin as [E|[E|[]]]; inversion E; reflexivity.
  - intros old new now s1 u cs rnd' Hu Hrole Hid Hok s2.
    rewrite (login_default choice a) by exact Hin.
    destruct (custom_password _ _) eqn:Hcp; [reflexivity|]. exfalso.
    revert Hcp. apply override_persists. rewrite <- Hid.
    rewrite (changePassword_admin_records _ _ _ _ _ Hu Hrole Hok). discriminate.
Qed.

Lemma admin_default_login_until_override_witness :
  ("1", ketua_rw01) ∈ [("1", ketua_rw01); ("2", ketua_rw04)]
  /\ ls_admin_passwords (browser mounted) !! User.id ketua_rw01 = None
  /\ login "admin" "admin" (Some "1") sevens mounted = (true, ketua_session)
  /\ success (fst (changePassword "admin" "rahasia123" noon ketua_session)) = true
  /\ login "admin" "admin" (Some "1") sevens
       (calls [CLogout] (snd (changePassword "admin" "rahasia123" noon ketua_session)))
     = (false, calls [CLogout] (snd (changePassword "admin" "rahasia123" noon ketua_session))).
Proof.
  assert (H1 : ("1", ketua_rw01) ∈ [("1", ketua_rw01); ("2", ketua_rw04)])
    by apply list_elem_of_here.
  assert (H2 : ls_admin_passwords (browser mounted) !! User.id ketua_rw01 = None)
    by reflexivity.
  destruct (admin_default_login_until_override "1" ketua_rw01 sevens mounted H1 H2)
    as (Hlogin & _ & _ & Hlater).
  split; [exact H1|]. split; [exact H2|]. split; [exact Hlogin|].
  split; [reflexivity|].
  apply (Hlater "admin" "rahasia123" noon ketua_session ketua_rw01 [CLogout] sevens);
    reflexivity.
Defined.

(** *** Registration *)

Lemma register_fresh userData rnd now s :
  RegisterData.username userData <> "admin" ->
  Forall (fun r => Registered.username r <> RegisterData.username userData)
    (ls_registered_users (browser s)) ->
  register userData rnd now s
  = (mkOutcome true "Registrasi berhasil! Silakan login.",
     mkSession (user s)
       (set_ls_registered_users
          (ls_registered_users (browser s) ++ [newUser userData rnd now]) (browser s))).
Proof.
  intros Hadmin Hfree. unfold register.
  rewrite (proj2 (String.eqb_neq _ _) Hadmin).
  rewrite (proj2 (list_find_None _ _) Hfree). reflexivity.
Qed.

Lemma register_taken userData rnd now s r :
  r ∈ ls_registered_users (browser s) ->
  Registered.username r = RegisterData.username userData ->
  success (fst (register userData rnd now s)) = false
  /\ snd (register userData rnd now s) = s.
Proof.
  intros Hin Hname. unfold register.
  destruct (String.eqb _ "admin"); [split; reflexivity|].
  destruct (list_find_elem_of
              (fun u => Registered.username u = RegisterData.username userData)
              _ r Hin Hname) as [[i x] ->].
  split; reflexivity.
Qed.

(** The scan of the registry finds the entry of a user who has just been
    registered under a name that was free. *)
Lemma login_registered_new userData rnd now rnd' s (users : list Registered.t) :
  ls_registered_users (browser s) = (users ++ [newUser userData rnd now])%list ->
  Forall (fun r => Registered.username r <> RegisterData.username userData) users ->
  login_registered (RegisterData.username userData) (RegisterData.password userData) rnd' s
  = (true, sign_in (Registered.user (newUser userData rnd now)) s).
Proof.
  intros Husers Hfree. unfold login_registered. rewrite Husers.
  rewrite list_find_app_r.
  2:{ apply list_find_None. eapply Forall_impl; [|exact Hfree].
      intros r Hr [Hname _]. exact (Hr Hname). }
  cbn [list_find]. rewrite decide_True by (split; reflexivity).
  cbn [fmap option_fmap option_map prod_map fst snd id].
  change (Registered.id (newUser userData rnd now)) with (generateUUID rnd).
  rewrite generateUUID_valid. reflexivity.
Qed.

Lemma names_insert_same (l : list Registered.t) i x y :
  l !! i = Some y -> Registered.username x = Registered.username y ->
  Registered.username <$> <[i := x]> l = Registered.username <$> l.
Proof.
  intros Hi Hname. rewrite list_fmap_insert. apply list_insert_id.
  rewrite list_lookup_fmap, Hi. cbn. rewrite Hname. reflexivity.
Qed.

Lemma names_login_registered username password rnd s :
  names (snd (login_registered username password rnd s)) = names s.
Proof.
  unfold login_registered.
  destruct (list_find _ _) as [[found foundUser]|] eqn:Hfound; [|reflexivity].
  destruct (negb _); [|reflexivity].
  apply list_find_Some in Hfound as (Hfound & [Hname _] & _).
  destruct (list_find _ (<[found:=_]> _)) as [[userIndex y]|] eqn:Hindex; [|reflexivity].
  apply list_find_Some in Hindex as (Hindex & Hy & _).
  unfold names. cbn.
  rewrite (names_insert_same _ userIndex _ y Hindex) by (rewrite Hy; exact Hname).
  apply (names_insert_same _ found _ foundUser Hfound). reflexivity.
Qed.

Lemma names_login username password rwChoice rnd s :
  names (snd (login username password rwChoice rnd s)) = names s.
Proof.
  unfold login.
  repeat (match goal with
          | |- context [login_registered ?a ?b ?c ?d] =>
              rewrite (names_login_registered a b c d)
          | |- context [match ?x with _ => _ end] => destruct x
          end; try reflexivity).
Qed.

(** No call removes or renames an entry of the registry. *)
Lemma names_call c s : exists more, names (call c s) = (names s ++ more)%list.
Proof.
  destruct c as [username password rwChoice rnd|userData rnd now| |old new now];
    cbn [call].
  - exists []. rewrite names_login, app_nil_r. reflexivity.
  - unfold register.
    destruct (String.eqb _ _); [exists []; rewrite app_nil_r; reflexivity|].
    destruct (list_find _ _); [exists []; rewrite app_nil_r; reflexivity|].
    eexists. unfold names. cbn. rewrite fmap_app. reflexivity.
  - exists []. rewrite app_nil_r. reflexivity.
  - exists []. rewrite app_nil_r. unfold changePassword.
    destruct (user s) as [u|]; [|reflexivity].
    destruct (User.role u).
    + repeat (match goal with
              | |- context [if ?x then _ else _] => destruct x
              end; try reflexivity).
    + destruct (list_find _ _) as [[userIndex entry]|] eqn:Hfind; [|reflexivity].
      repeat (match goal with
              | |- context [if ?x then _ else _] => destruct x
              end; try reflexivity).
      apply list_find_Some in Hfind as (Hfind & _).
      unfold names. cbn. apply (names_insert_same _ _ _ entry Hfind). reflexivity.
Qed.

Lemma names_calls cs s : exists more, names (calls cs s) = (names s ++ more)%list.
Proof.
  revert s. induction cs as [|c cs IH]; intros s.
  - exists []. rewrite app_nil_r. reflexivity.
  - change (calls (c :: cs) s) with (calls cs (call c s)).
    destruct (IH (call c s)) as [more2 H2]. destruct (names_call c s) as [more1 H1].
    exists (more1 ++ more2)%list. rewrite H2, H1, app_assoc. reflexivity.
Qed.

(** C7. Registering a user name that is neither the reserved [admin] nor in
    the registry succeeds; a login with the same user name and password
    then succeeds and opens a session for that user; registering the same
    user name again fails and changes nothing, straight away and after any
    further calls. *)
Theorem register_then_login (userData : RegisterData.t) rnd now (s : Session) :
  RegisterData.username userData <> "admin" ->
  Forall (fun r => Registered.username r <> RegisterData.username userData)
    (ls_registered_users (browser s)) ->
  success (fst (register userData rnd now s)) = true
  /\ (forall rwChoice rnd',
        login (RegisterData.username userData) (RegisterData.password userData)
          rwChoice rnd' (snd (register userData rnd now s))
        = (true,
           sign_in (Registered.user (newUser userData rnd now))
             (snd (register userData rnd now s))))
  /\ User.username (Registered.user (newUser userData rnd now))
     = RegisterData.username userData
  /\ (forall cs userData' rnd' now',
        RegisterData.username userData' = RegisterData.username userData ->
        let s2 := calls cs (snd (register userData rnd now s)) in
        success (fst (register userData' rnd' now' s2)) = false
        /\ snd (register userData' rnd' now' s2) = s2).
Proof.
  intros Hadmin Hfree. rewrite (register_fresh _ _ _ _ Hadmin Hfree). cbn [fst snd].
  split; [reflexivity|]. split; [|split; [reflexivity|]].
  - intros rwChoice rnd'. unfold login.
    rewrite (proj2 (String.eqb_neq _ _) Hadmin).
    apply (login_registered_new _ _ _ _ _ (ls_registered_users (browser s)));
      [reflexivity | exact Hfree].
  - intros cs userData' rnd' now' Hsame. cbv zeta.
    match goal with
    | |- context [calls cs ?s1] =>
        destruct (names_calls cs s1) as [more Hmore]; set (s2 := calls cs s1) in *
    end.
    assert (Hin : RegisterData.username userData ∈ names s2).
    { rewrite Hmore. unfold names. cbn. rewrite fmap_app.
      apply elem_of_app. left. apply elem_of_app. right. apply list_elem_of_here. }
    apply list_elem_of_fmap in Hin as (r & Hname & Hin).
    apply (register_taken _ _ _ _ r Hin). rewrite Hsame, Hname. reflexivity.
Qed.

Lemma register_then_login_witness :
  RegisterData.username budi_data <> "admin"
  /\ Forall (fun r => Registered.username r <> RegisterData.username budi_data)
       (ls_registered_users (browser with_sari))
  /\ success (fst (register budi_data sevens noon with_sari)) = true
  /\ fst (login "budi" "rahasia1" None sevens (snd (register budi_data sevens noon with_sari)))
     = true
  /\ success (fst (register budi_data sevens noon
                     (snd (register budi_data sevens noon with_sari)))) = false.
Proof.
  assert (H1 : RegisterData.username budi_data <> "admin") by discriminate.
  assert (H2 : Forall (fun r => Registered.username r <> RegisterData.username budi_data)
                 (ls_registered_users (browser with_sari))).
  { apply Forall_singleton. discriminate. }
  destruct (register_then_login budi_data sevens noon with_sari H1 H2)
    as (Hreg & Hlogin & _ & Hagain).
  split; [exact H1|]. split; [exact H2|]. split; [exact Hreg|]. split.
  - exact (f_equal fst (Hlogin None sevens)).
  - exact (proj1 (Hagain [] budi_data sevens noon eq_refl)).
Defined.

(** *** Who can hold an admin session *)

Lemma predefined_self a : a ∈ ADMIN_USERS -> predefined a.
Proof. intros Ha. exists a. repeat split; assumption. Qed.

Lemma predefined_id u :
  predefined u ->
  User.id u = "550e8400-e29b-41d4-a716-446655440001"
  \/ User.id u = "550e8400-e29b-41d4-a716-446655440004".
Proof.
  intros (a & Ha & Hid & _). rewrite Hid.
  apply list_elem_of_In in Ha. destruct Ha as [<-|[<-|[]]]; [left|right]; reflexivity.
Qed.

Lemma held_sign_in u s v : held (sign_in u s) v -> v = u.
Proof. intros [H|H]; cbn in H; congruence. Qed.

Lemma inv_sign_in_user u s :
  ordinary s -> User.role u = role_user -> inv (sign_in u s).
Proof.
  intros Hreg Hrole. split; [exact Hreg|].
  intros v Hv Hadmin. apply held_sign_in in Hv. subst v. congruence.
Qed.

Lemma inv_sign_in_predefined u s : ordinary s -> predefined u -> inv (sign_in u s).
Proof.
  intros Hreg Hpre. split; [exact Hreg|].
  intros v Hv _. apply held_sign_in in Hv. subst v. exact Hpre.
Qed.

Lemma inv_login_registered username password rnd s :
  inv s -> inv (snd (login_registered username password rnd s)).
Proof.
  intros Hinv. pose proof Hinv as [Hreg Hses]. unfold login_registered.
  destruct (list_find _ _) as [[found foundUser]|] eqn:Hfound; [|exact Hinv].
  apply list_find_Some in Hfound as (Hfound & _ & _).
  pose proof (Forall_lookup_1 _ _ _ _ Hreg Hfound) as Hrole. cbn beta in Hrole.
  destruct (negb _); cbn [snd].
  - apply inv_sign_in_user; [|exact Hrole]. unfold ordinary.
    destruct (list_find _ (<[found:=_]> _)) as [[userIndex y]|]; [|exact Hreg].
    cbn. apply Forall_insert; [apply Forall_insert; [exact Hreg|]|]; exact Hrole.
  - apply inv_sign_in_user; [exact Hreg | exact Hrole].
Qed.

Lemma inv_login username password rwChoice rnd s :
  inv s -> inv (snd (login username password rwChoice rnd s)).
Proof.
  intros Hinv. unfold login.
  destruct (String.eqb username "admin"); [|apply inv_login_registered; exact Hinv].
  destruct (String.eqb password DEFAULT_ADMIN_PASSWORD).
  - destruct rwChoice as [c|]; [|exact Hinv].
    destruct (String.eqb c "1"); [|destruct (String.eqb c "2"); [|exact Hinv]].
    + rewrite find_admin_rw01. destruct (custom_password _ _); [exact Hinv|].
      apply inv_sign_in_predefined; [exact (proj1 Hinv)|].
      apply predefined_self, list_elem_of_here.
    + rewrite find_admin_rw04. destruct (custom_password _ _); [exact Hinv|].
      apply inv_sign_in_predefined; [exact (proj1 Hinv)|].
      apply predefined_self, list_elem_of_further, list_elem_of_here.
  - destruct (list_find _ ADMIN_USERS) as [[i a]|] eqn:Hfind;
      [|apply inv_login_registered; exact Hinv].
    apply list_find_Some in Hfind as (Hfind & _ & _).
    apply list_elem_of_lookup_2 in Hfind.
    apply inv_sign_in_predefined; [exact (proj1 Hinv)|].
    destruct (predefined_self a Hfind) as (b & Hb & H). exists b. split; [exact Hb|exact H].
Qed.

Lemma inv_register userData rnd now s : inv s -> inv (snd (register userData rnd now s)).
Proof.
  intros Hinv. pose proof Hinv as [Hreg Hses]. unfold register.
  destruct (String.eqb _ _); [exact Hinv|].
  destruct (list_find _ _); [exact Hinv|].
  split; [|exact Hses]. cbn. apply Forall_app. split; [exact Hreg|].
  apply Forall_singleton. reflexivity.
Qed.

Lemma inv_logout s : inv s -> inv (logout s).
Proof.
  intros [Hreg _]. split; [exact Hreg|]. intros u [H|H]; cbn in H; discriminate.
Qed.

Lemma inv_changePassword old new now s :
  inv s -> inv (snd (changePassword old new now s)).
Proof.
  intros Hinv. pose proof Hinv as [Hreg Hses]. unfold changePassword.
  destruct (user s) as [u|] eqn:Hu; [|exact Hinv].
  destruct (User.role u) eqn:Hrole.
  - destruct (negb _); [exact Hinv|].
    destruct (_ <? _)%nat; [exact Hinv|].
    destruct (String.eqb old new); [exact Hinv|].
    cbn [snd]. apply inv_sign_in_predefined.
    + exact Hreg.
    + destruct (Hses u (or_introl Hu) Hrole) as (a & Ha & H).
      exists a. split; [exact Ha | exact H].
  - destruct (list_find _ _) as [[userIndex entry]|] eqn:Hfind; [|exact Hinv].
    destruct (negb _); [exact Hinv|].
    destruct (_ <? _)%nat; [exact Hinv|].
    destruct (String.eqb old new); [exact Hinv|].
    apply list_find_Some in Hfind as (Hfind & _ & _).
    split.
    2:{ intros v [Hv|Hv]; apply Hses; [left; cbn in Hv; congruence | right; exact Hv]. }
    cbn. apply Forall_insert; [exact Hreg|].
    exact (Forall_lookup_1 _ _ _ _ Hreg Hfind).
Qed.

Lemma inv_call c s : inv s -> inv (call c s).
Proof.
  destruct c; cbn [call];
    auto using inv_login, inv_register, inv_logout, inv_changePassword.
Qed.

Lemma inv_calls cs s : inv s -> inv (calls cs s).
Proof.
  revert s. induction cs as [|c cs IH]; intros s Hinv; [exact Hinv|].
  change (calls (c :: cs) s) with (calls cs (call c s)). apply IH, inv_call, Hinv.
Qed.

Lemma inv_fresh records overrides : inv (fresh records overrides).
Proof. split; [apply Forall_nil_2|]. intros u [H|H]; discriminate. Qed.

(** C9. After any sequence of [login], [register], [logout] and
    [changePassword] calls on a provider that starts with an empty registry
    and no session: a session whose role is [admin] is one of the two
    predefined accounts (identifier ending in 440001 or 440004); a
    successful [register] appends a user whose role is [user]; and a
    successful [login] under a user name other than [admin] opens a session
    whose role is [user]. *)
Theorem admin_sessions_are_predefined records overrides (cs : list Call) :
  let s := calls cs (fresh records overrides) in
  (forall u, held s u -> User.role u = role_admin ->
     predefined u
     /\ (User.id u = "550e8400-e29b-41d4-a716-446655440001"
         \/ User.id u = "550e8400-e29b-41d4-a716-446655440004"))
  /\ (forall userData rnd now,
        success (fst (register userData rnd now s)) = true ->
        ls_registered_users (browser (snd (register userData rnd now s)))
        = (ls_registered_users (browser s) ++ [newUser userData rnd now])%list
        /\ User.role (Registered.user (newUser userData rnd now)) = role_user)
  /\ (forall username password rwChoice rnd u,
        username <> "admin" ->
        fst (login username password rwChoice rnd s) = true ->
        held (snd (login username password rwChoice rnd s)) u ->
        User.role u = role_user).
Proof.
  intros s. assert (Hinv : inv s) by apply inv_calls, inv_fresh.
  destruct Hinv as [Hreg Hses]. split; [|split].
  - intros u Hu Hrole. split; [apply Hses; assumption|].
    apply predefined_id, Hses; assumption.
  - intros userData rnd now. unfold register.
    destruct (String.eqb _ _); [discriminate|].
    destruct (list_find _ _); [discriminate|]. intros _. split; reflexivity.
  - intros username password rwChoice rnd u Hname. unfold login.
    rewrite (proj2 (String.eqb_neq _ _) Hname). unfold login_registered.
    destruct (list_find _ _) as [[found foundUser]|] eqn:Hfound; [|discriminate].
    apply list_find_Some in Hfound as (Hfound & _ & _).
    pose proof (Forall_lookup_1 _ _ _ _ Hreg Hfound) as Hrole. cbn beta in Hrole.
    destruct (negb _); cbn [fst snd]; intros _ Hu;
      apply held_sign_in in Hu; subst u; exact Hrole.
Qed.

(** *** What [changePassword] leaves alone *)

Lemma same_identity_refl u : same_identity u u.
Proof. repeat split. Qed.

Lemma one_credential_rotated_refl u new stamp l : one_credential_rotated u new stamp l l.
Proof.
  split; [reflexivity|]. split; [auto|]. split; [exists 0; reflexivity|].
  intros i r r' H1 H2. left. congruence.
Qed.

Lemma one_credential_rotated_insert u new stamp l i entry :
  l !! i = Some entry -> Registered.id entry = User.id u ->
  one_credential_rotated u new stamp l (<[i := rotate new stamp entry]> l).
Proof.
  intros Hi Hid. split; [apply length_insert|]. split; [|split].
  - intros j r Hj Hne. destruct (decide (i = j)) as [->|Hij].
    + congruence.
    + rewrite list_lookup_insert_ne by exact Hij. exact Hj.
  - exists i. intros j Hj. apply list_lookup_insert_ne. congruence.
  - intros j r r' Hj Hj'. destruct (decide (i = j)) as [->|Hij].
    + rewrite list_lookup_insert_eq in Hj' by (eapply lookup_lt_Some; exact Hj).
      right. congruence.
    + rewrite list_lookup_insert_ne in Hj' by exact Hij. left. congruence.
Qed.

(** C10. [changePassword] under an admin session leaves the registry of
    users as it is and changes, in the map of overrides, at most the entry
    of the caller; under a user session it leaves the map of overrides and
    the session as they are and changes, in the registry, at most one entry,
    which carries the caller's identifier, and of it only the password and
    the time of the last change. In both cases the session keeps its
    identity and the business records are untouched. *)
Theorem changePassword_frame old new now (s : Session) (u : User.t) :
  user s = Some u ->
  let s' := snd (changePassword old new now s) in
  ls_umkm (browser s') = ls_umkm (browser s)
  /\ (User.role u = role_admin ->
      ls_registered_users (browser s') = ls_registered_users (browser s)
      /\ (forall k, k <> User.id u ->
            ls_admin_passwords (browser s') !! k = ls_admin_passwords (browser s) !! k)
      /\ (exists u', user s' = Some u' /\ same_identity u u'
            /\ (ls_auth_user (browser s') = Some u'
                \/ ls_auth_user (browser s') = ls_auth_user (browser s))))
  /\ (User.role u = role_user ->
      ls_admin_passwords (browser s') = ls_admin_passwords (browser s)
      /\ user s' = Some u
      /\ ls_auth_user (browser s') = ls_auth_user (browser s)
      /\ one_credential_rotated u new (iso now)
           (ls_registered_users (browser s)) (ls_registered_users (browser s'))).
Proof.
  intros Hu s'. subst s'.
  assert (Hsame : ls_umkm (browser s) = ls_umkm (browser s)
    /\ (User.role u = role_admin ->
        ls_registered_users (browser s) = ls_registered_users (browser s)
        /\ (forall k, k <> User.id u ->
              ls_admin_passwords (browser s) !! k = ls_admin_passwords (browser s) !! k)
        /\ (exists u', user s = Some u' /\ same_identity u u'
              /\ (ls_auth_user (browser s) = Some u'
                  \/ ls_auth_user (browser s) = ls_auth_user (browser s))))
    /\ (User.role u = role_user ->
        ls_admin_passwords (browser s) = ls_admin_passwords (browser s)
        /\ user s = Some u
        /\ ls_auth_user (browser s) = ls_auth_user (browser s)
        /\ one_credential_rotated u new (iso now)
             (ls_registered_users (browser s)) (ls_registered_users (browser s)))).
  { split; [reflexivity|]. split; intros _.
    - split; [reflexivity|]. split; [reflexivity|].
      exists u. split; [exact Hu|]. split; [apply same_identity_refl | right; reflexivity].
    - split; [reflexivity|]. split; [exact Hu|]. split; [reflexivity|].
      apply one_credential_rotated_refl. }
  unfold changePassword. rewrite Hu.
  destruct (User.role u) eqn:Hrole.
  - destruct (negb _); [exact Hsame|].
    destruct (_ <? _)%nat; [exact Hsame|].
    destruct (String.eqb old new); [exact Hsame|].
    cbn [snd]. split; [reflexivity|]. split; [intros _|discriminate].
    split; [reflexivity|]. split.
    + intros k Hk. cbn. apply lookup_insert_ne. congruence.
    + eexists. split; [reflexivity|]. split; [|left; reflexivity].
      repeat split; try reflexivity; cbn; exact Hrole.
  - destruct (list_find _ _) as [[userIndex entry]|] eqn:Hfind; [|exact Hsame].
    destruct (negb _); [exact Hsame|].
    destruct (_ <? _)%nat; [exact Hsame|].
    destruct (String.eqb old new); [exact Hsame|].
    apply list_find_Some in Hfind as (Hfind & Hid & _).
    cbn [snd]. split; [reflexivity|]. split; [discriminate|intros _].
    split; [reflexivity|]. split; [reflexivity|]. split; [reflexivity|].
    cbn. apply one_credential_rotated_insert; assumption.
Qed.

Lemma changePassword_frame_witness :
  user sari_session = Some sari_user
  /\ User.role sari_user = role_user
  /\ success (fst (changePassword "melati99" "kenanga7" noon sari_session)) = true
  /\ ls_admin_passwords (browser (snd (changePassword "melati99" "kenanga7" noon sari_session)))
     = ls_admin_passwords (browser sari_session)
  /\ user (snd (changePassword "melati99" "kenanga7" noon sari_session)) = Some sari_user
  /\ one_credential_rotated sari_user "kenanga7" (iso noon)
       (ls_registered_users (browser sari_session))
       (ls_registered_users
          (browser (snd (changePassword "melati99" "kenanga7" noon sari_session)))).
Proof.
  assert (Hu : user sari_session = Some sari_user) by reflexivity.
  destruct (changePassword_frame "melati99" "kenanga7" noon sari_session sari_user Hu)
    as (_ & _ & Huser).
  destruct (Huser eq_refl) as (Hmap & Hsession & _ & Hregistry).
  split; [exact Hu|]. split; [reflexivity|]. split; [reflexivity|]. split; [exact Hmap|].
  split; [exact Hsession | exact Hregistry].
Defined.


(** * Further properties of the code *)

(** ** Identifiers *)

Lemma generateUUID_fill (rnd : Random) :
  generateUUID rnd = fill (uuid_digit rnd) 0 uuid_template.
Proof.
  unfold generateUUID. apply replace_xy_fill.
  intros c k. cbn zeta. unfold uuid_digit. apply toString16_digit.
  destruct (Ascii.eqb c "x"); [apply fin_to_nat_lt | apply variant_digit].
Qed.

Lemma variant_char (r : nat) :
  hex_char (Nat.lor (Nat.land r 3) 8) ∈ ["8"; "9"; "a"; "b"]%char.
Proof.
  assert (H : Nat.land r 3 < 4).
  { change 3 with (Nat.ones 2). rewrite Nat.land_ones. apply Nat.mod_upper_bound. lia. }
  remember (Nat.land r 3) as m eqn:Em. clear Em.
  do 4 (destruct m as [|m]; [cbn; set_solver|]). lia.
Qed.

(** X1. Whatever the random draws, [generateUUID] returns 36 characters in
    the layout of a version-4 UUID: hyphens after the groups of 8, 4, 4 and
    4, the version digit [4], and a variant digit among [8], [9], [a], [b]. *)
Theorem generateUUID_is_version_4 (rnd : Random) :
  String.length (generateUUID rnd) = 36
  /\ String.get 8 (generateUUID rnd) = Some "-"%char
  /\ String.get 13 (generateUUID rnd) = Some "-"%char
  /\ String.get 18 (generateUUID rnd) = Some "-"%char
  /\ String.get 23 (generateUUID rnd) = Some "-"%char
  /\ String.get 14 (generateUUID rnd) = Some "4"%char
  /\ (exists c, String.get 19 (generateUUID rnd) = Some c
               /\ c ∈ ["8"; "9"; "a"; "b"]%char).
Proof.
  rewrite generateUUID_fill.
  repeat (split; [reflexivity|]).
  eexists. split; [reflexivity|]. apply variant_char.
Qed.

Lemma hex_run_length n s s' :
  hex_run n s = Some s' -> String.length s = n + String.length s'.
Proof.
  revert s. induction n as [|n IH]; intros s; cbn.
  - intros [= ->]. reflexivity.
  - destruct s as [|c s]; [discriminate|].
    destruct (is_hex c); [|discriminate]. intros H. cbn. rewrite (IH _ H). reflexivity.
Qed.

Lemma match_pieces_length ps s :
  match_pieces ps s = true -> String.length s = pieces_length ps.
Proof.
  revert s. induction ps as [|[n|] ps IH]; intros s; cbn [match_pieces].
  - intros H. apply String.eqb_eq in H. subst s. reflexivity.
  - destruct (hex_run n s) as [s'|] eqn:Hrun; [|discriminate].
    intros H. rewrite (hex_run_length _ _ _ Hrun), (IH _ H). reflexivity.
  - destruct s as [|c s]; [discriminate|]. cbn [dash].
    destruct (Ascii.eqb c "-"); [|discriminate].
    intros H. cbn. rewrite (IH _ H). reflexivity.
Qed.

(** X2. Only strings of exactly 36 characters pass [isValidUUID]: the anchors
    of the pattern leave room for nothing before or after the five groups. *)
Theorem isValidUUID_length (s : string) :
  isValidUUID (Some s) = true -> String.length s = 36.
Proof.
  cbn [isValidUUID]. intros H. apply andb_prop in H as [_ H].
  apply (match_pieces_length _ _ H).
Qed.

Lemma isValidUUID_length_witness :
  isValidUUID (Some budi) = true /\ String.length budi = 36.
Proof.
  assert (H : isValidUUID (Some budi) = true) by reflexivity.
  split; [exact H | exact (isValidUUID_length budi H)].
Defined.

(** X3. [ensureValidUUID] settles in one step: its result is a well-formed
    UUID, and passing that result through [ensureValidUUID] again, with any
    random draws, gives it back. An owner identifier coerced once by
    [create] is therefore never coerced a second time. *)
Theorem ensureValidUUID_idempotent (rnd rnd' : Random) (id : option string) :
  isValidUUID (Some (ensureValidUUID rnd id)) = true
  /\ ensureValidUUID rnd' (Some (ensureValidUUID rnd id)) = ensureValidUUID rnd id.
Proof.
  split; [apply ensureValidUUID_valid|].
  apply ensureValidUUID_keeps, ensureValidUUID_valid.
Qed.

(** ** The record store in local mode *)

Lemma filter_length_all {A} (P : A -> Prop) `{forall x, Decision (P x)} (l : list A) :
  length (filter P l) = length l -> Forall P l.
Proof.
  induction l as [|x l IH]; [constructor|].
  destruct (decide (P x)) as [Hx|Hx].
  - rewrite filter_cons_True by exact Hx. cbn. intros [= Hlen]. constructor; auto.
  - rewrite filter_cons_False by exact Hx. cbn. intros Hlen.
    pose proof (length_filter P l). lia.
Qed.

Lemma Exists_elem_of {A} (P : A -> Prop) (l : list A) :
  Exists P l -> exists x, x ∈ l /\ P x.
Proof.
  induction 1 as [x l Hx|x l _ (y & Hy & HP)].
  - exists x. split; [apply list_elem_of_here | exact Hx].
  - exists y. split; [apply list_elem_of_further; exact Hy | exact HP].
Qed.

Lemma ls_all_nonempty_browser window s x l :
  ls_all window s = x :: l -> window = true.
Proof. destruct window; [reflexivity | discriminate]. Qed.

Lemma list_find_browser {P : UMKM -> Prop} `{forall x, Decision (P x)} window s i x :
  list_find P (ls_all window s) = Some (i, x) -> window = true.
Proof. destruct window; [reflexivity | discriminate]. Qed.

(** X4. In local mode [update] and [delete] raise [NotFoundOrForbidden]
    exactly when no stored record matches both the identifier and the
    owner; otherwise [update] returns a record and [delete] returns
    [true]. *)
Theorem local_writes_raise_iff_no_match window id payload userId now flt w :
  (fst (update false window id payload userId now flt w) = Throw NotFoundOrForbidden
   <-> Forall (fun u => ~ owned_by id userId u) (ls_all window (storage w)))
  /\ (fst (delete false window id userId flt w) = Throw NotFoundOrForbidden
      <-> Forall (fun u => ~ owned_by id userId u) (ls_all window (storage w)))
  /\ (Exists (owned_by id userId) (ls_all window (storage w)) ->
      (exists item, fst (update false window id payload userId now flt w)
                    = Return (Some item))
      /\ fst (delete false window id userId flt w) = Return true).
Proof.
  split; [|split].
  - split.
    + unfold update. cbn [negb].
      destruct (list_find _ _) as [[i x]|] eqn:Hfind; [discriminate|].
      intros _. exact (proj1 (list_find_None _ _) Hfind).
    + intros Hnone. rewrite update_local_mismatch by exact Hnone. reflexivity.
  - split.
    + unfold delete. cbn [negb].
      destruct (_ =? _)%nat eqn:Hlen; [|discriminate].
      intros _. apply Nat.eqb_eq in Hlen. apply (filter_length_all _ _ Hlen).
    + intros Hnone. rewrite delete_local_mismatch by exact Hnone. reflexivity.
  - intros Hsome. apply Exists_elem_of in Hsome as (x & Hin & Hx). split.
    + destruct (list_find_elem_of (owned_by id userId) _ x Hin Hx) as [[i y] Hfind].
      unfold update. cbn [negb]. rewrite Hfind. eexists. reflexivity.
    + unfold delete. cbn [negb].
      assert (Hlt : length (filter (fun u => ~ owned_by id userId u)
                              (ls_all window (storage w)))
                    < length (ls_all window (storage w))).
      { apply (length_filter_lt _ _ x Hin). intros Hn. exact (Hn Hx). }
      destruct (Nat.eqb_spec
                  (length (filter (fun u => ~ owned_by id userId u)
                             (ls_all window (storage w))))
                  (length (ls_all window (storage w)))) as [E|_]; [lia|reflexivity].
Qed.

(** X5. A successful local [update] rewrites one element of the stored array
    and nothing else: the first record that matches identifier and owner is
    replaced, in place, by the record merged with the payload, which is also
    what is returned. The properties named in the payload take its values,
    all others keep theirs; the other records, the length of the array and
    the remote tables stay as they were. *)
Theorem update_local_effect window id payload userId now flt w i old :
  list_find (owned_by id userId) (ls_all window (storage w)) = Some (i, old) ->
  fst (update false window id payload userId now flt w) = Return (Some (payload ∪ old))
  /\ ls_all window (storage (snd (update false window id payload userId now flt w)))
     = <[i := payload ∪ old]> (ls_all window (storage w))
  /\ length (ls_all window (storage (snd (update false window id payload userId now flt w))))
     = length (ls_all window (storage w))
  /\ (forall j, j <> i ->
        ls_all window (storage (snd (update false window id payload userId now flt w))) !! j
        = ls_all window (storage w) !! j)
  /\ (forall k v, payload !! k = Some v -> (payload ∪ old) !! k = Some v)
  /\ (forall k, payload !! k = None -> (payload ∪ old) !! k = old !! k)
  /\ remote (snd (update false window id payload userId now flt w)) = remote w.
Proof.
  intros Hfind. pose proof (list_find_browser _ _ _ _ Hfind) as ->.
  unfold update. cbn [negb]. rewrite Hfind. cbn [fst snd].
  split; [reflexivity|]. split; [reflexivity|].
  split; [cbn; apply length_insert|].
  split; [intros j Hj; cbn; apply list_lookup_insert_ne; congruence|].
  split; [intros k v Hk; apply lookup_union_Some_l; exact Hk|].
  split; [intros k Hk; apply lookup_union_r; exact Hk | reflexivity].
Qed.

Lemma update_local_effect_witness :
  list_find (owned_by "b1" budi) (ls_all true (storage offline)) = Some (0, toko_bunga_row)
  /\ fst (update false true "b1" {[ "status" := VStr "closed" ]} budi noon None offline)
     = Return (Some ({[ "status" := VStr "closed" ]} ∪ toko_bunga_row))
  /\ ls_all true
       (storage (snd (update false true "b1" {[ "status" := VStr "closed" ]} budi noon
                        None offline)))
     = <[0 := {[ "status" := VStr "closed" ]} ∪ toko_bunga_row]> (ls_all true (storage offline)).
Proof.
  assert (H : list_find (owned_by "b1" budi) (ls_all true (storage offline))
              = Some (0, toko_bunga_row)) by (vm_compute; reflexivity).
  destruct (update_local_effect true "b1" {[ "status" := VStr "closed" ]} budi noon None
              offline 0 toko_bunga_row H) as (Hret & Hstore & _).
  split; [exact H|]. split; [exact Hret | exact Hstore].
Defined.

(** X6. A successful local [delete] removes every stored record that matches
    identifier and owner and keeps all the others, in their order; the
    remote tables are untouched. Once it has succeeded, the same [delete]
    and any [update] with that identifier and owner raise
    [NotFoundOrForbidden]. *)
Theorem delete_local_effect window id userId flt w :
  Exists (owned_by id userId) (ls_all window (storage w)) ->
  fst (delete false window id userId flt w) = Return true
  /\ ls_all window (storage (snd (delete false window id userId flt w)))
     = filter (fun u => ~ owned_by id userId u) (ls_all window (storage w))
  /\ remote (snd (delete false window id userId flt w)) = remote w
  /\ (forall flt', fst (delete false window id userId flt'
                          (snd (delete false window id userId flt w)))
                   = Throw NotFoundOrForbidden)
  /\ (forall payload now flt',
        fst (update false window id payload userId now flt'
               (snd (delete false window id userId flt w)))
        = Throw NotFoundOrForbidden).
Proof.
  intros Hsome.
  assert (Hw : window = true).
  { apply Exists_elem_of in Hsome as (x & Hin & _).
    destruct window; [reflexivity|]. cbn in Hin. inversion Hin. }
  subst window.
  assert (Hret : delete false true id userId flt w
                 = (Return true,
                    set_storage
                      (ls_save true
                         (filter (fun u => ~ owned_by id userId u) (ls_all true (storage w)))
                         (storage w)) w)).
  { unfold delete. cbn [negb].
    apply Exists_elem_of in Hsome as (x & Hin & Hx).
    assert (Hlt : length (filter (fun u => ~ owned_by id userId u) (ls_all true (storage w)))
                  < length (ls_all true (storage w))).
    { apply (length_filter_lt _ _ x Hin). intros Hn. exact (Hn Hx). }
    destruct (Nat.eqb_spec
                (length (filter (fun u => ~ owned_by id userId u) (ls_all true (storage w))))
                (length (ls_all true (storage w)))) as [E|_]; [lia|reflexivity]. }
  rewrite Hret. cbn [fst snd].
  assert (Hgone : Forall (fun u => ~ owned_by id userId u)
                    (ls_all true
                       (storage
                          (set_storage
                             (ls_save true
                                (filter (fun u => ~ owned_by id userId u)
                                   (ls_all true (storage w)))
                                (storage w)) w)))).
  { cbn. apply Forall_forall. intros u Hu. apply list_elem_of_In in Hu.
    apply list_elem_of_filter in Hu as [Hu _]. exact Hu. }
  split; [reflexivity|]. split; [reflexivity|]. split; [reflexivity|]. split.
  - intros flt'. rewrite delete_local_mismatch by exact Hgone. reflexivity.
  - intros payload now flt'. rewrite update_local_mismatch by exact Hgone. reflexivity.
Qed.

Lemma delete_local_effect_witness :
  Exists (owned_by "b1" budi) (ls_all true (storage offline))
  /\ fst (delete false true "b1" budi None offline) = Return true
  /\ ls_all true (storage (snd (delete false true "b1" budi None offline))) = []
  /\ fst (delete false true "b1" budi None (snd (delete false true "b1" budi None offline)))
     = Throw NotFoundOrForbidden.
Proof.
  assert (H : Exists (owned_by "b1" budi) (ls_all true (storage offline))).
  { apply Exists_cons_hd. split; reflexivity. }
  destruct (delete_local_effect true "b1" budi None offline H)
    as (Hret & _ & _ & Hagain & _).
  split; [exact H|]. split; [exact Hret|]. split; [reflexivity | apply Hagain].
Defined.

Lemma given_valid uid : isValidUUID (Some uid) = true -> given (Some uid) = Some uid.
Proof.
  cbn. intros H. apply andb_prop in H as [H _].
  destruct (String.eqb uid ""); [discriminate | reflexivity].
Qed.

(** X7. In local mode, in a browser, [create] followed by [getById] is a
    round trip: the record returned by [create] carries the clock reading as
    its identifier, is the first of the stored array, and is what [getById]
    returns for that identifier, asked without an owner or with the owner
    the record was given. Outside a browser [create] returns the record all
    the same but nothing is stored, and [getById] finds nothing. *)
Theorem create_then_getById_local payload userId rnd now flt srv_id srv_now flt' w :
  exists item,
    fst (create false true payload userId rnd now flt srv_id srv_now w) = Return (Some item)
    /\ item !! "id" = Some (VStr (pretty (epoch_ms now)))
    /\ ls_all true (storage (snd (create false true payload userId rnd now flt srv_id srv_now w)))
       = item :: ls_all true (storage w)
    /\ getById false true (pretty (epoch_ms now)) None flt'
         (snd (create false true payload userId rnd now flt srv_id srv_now w))
       = Return (Some item)
    /\ getById false true (pretty (epoch_ms now))
         (Some (ensureValidUUID rnd (Some userId))) flt'
         (snd (create false true payload userId rnd now flt srv_id srv_now w))
       = Return (Some item)
    /\ fst (create false false payload userId rnd now flt srv_id srv_now w)
       = Return (Some item)
    /\ getById false false (pretty (epoch_ms now)) None flt'
         (snd (create false false payload userId rnd now flt srv_id srv_now w))
       = Return None.
Proof.
  eexists. split; [reflexivity|].
  split; [apply lookup_insert_eq|]. split; [reflexivity|].
  assert (Hfind : forall l,
    list_find (fun u : UMKM => prop_is u "id" (pretty (epoch_ms now)))
      (<["id" := VStr (pretty (epoch_ms now))]>
         (<["user_id" := VStr (ensureValidUUID rnd (Some userId))]> payload) :: l)
    = Some (0, <["id" := VStr (pretty (epoch_ms now))]>
                 (<["user_id" := VStr (ensureValidUUID rnd (Some userId))]> payload))).
  { intros l. cbn [list_find]. rewrite decide_True; [reflexivity|].
    unfold prop_is. apply lookup_insert_eq. }
  split; [|split; [|split; reflexivity]].
  - unfold getById, create. cbn [negb snd storage set_storage ls_save ls_all set_ls_umkm ls_umkm given].
    rewrite Hfind. reflexivity.
  - unfold getById, create. cbn [negb snd storage set_storage ls_save ls_all set_ls_umkm ls_umkm].
    rewrite (given_valid _ (ensureValidUUID_valid rnd (Some userId))).
    rewrite Hfind. cbn [fmap option_fmap option_map snd].
    rewrite bool_decide_eq_true_2; [reflexivity|].
    unfold prop_is. rewrite lookup_insert_ne by discriminate. apply lookup_insert_eq.
Qed.

(** ** Listing and reading *)

Lemma selected_owner uid (row : UMKM) :
  selected [FEq "user_id" uid] row = true <-> prop_is row "user_id" uid.
Proof.
  cbn. rewrite andb_true_r. apply bool_decide_eq_true.
Qed.

(** X8. [getAll] with an owner returns the stored records of that owner and
    no others: in local mode in their stored order, in remote mode (owner a
    UUID, request honoured) ordered newest first. *)
Theorem getAll_by_owner window uid flt_users flt_query w :
  given (Some uid) = Some uid ->
  getAll false window (Some uid) None flt_users flt_query w
  = Return (filter (fun item => prop_is item "user_id" uid) (ls_all window (storage w)))
  /\ (forall item,
        item ∈ filter (fun item => prop_is item "user_id" uid) (ls_all window (storage w))
        <-> item ∈ ls_all window (storage w) /\ prop_is item "user_id" uid)
  /\ (isValidUUID (Some uid) = true ->
      exists l,
        getAll true window (Some uid) None flt_users None w = Return l
        /\ StronglySorted newest_first l
        /\ (forall item,
              item ∈ l <-> item ∈ tbl_umkm (remote w) /\ prop_is item "user_id" uid)).
Proof.
  intros Hgiven. split; [|split].
  - unfold getAll. cbn [negb given]. cbn [given] in Hgiven. rewrite Hgiven. reflexivity.
  - intros item. rewrite list_elem_of_filter. tauto.
  - intros Hvalid. unfold getAll. cbn [negb given]. cbn [given] in Hgiven.
    rewrite Hgiven, Hvalid. cbn [negb]. unfold getAll_run, db_select. cbn.
    eexists. split; [reflexivity|].
    split; [apply (StronglySorted_merge_sort newest_first)|].
    intros item. rewrite merge_sort_Permutation.
    rewrite list_elem_of_In, filter_In, <- list_elem_of_In, selected_owner. tauto.
Qed.

Lemma getAll_by_owner_witness :
  given (Some budi) = Some budi
  /\ getAll false true (Some budi) None None None backlog = Return [january]
  /\ (exists l, getAll true true (Some budi) None None None hosted = Return l
                /\ forall item, item ∈ l <-> item ∈ tbl_umkm (remote hosted)
                                              /\ prop_is item "user_id" budi).
Proof.
  assert (H : given (Some budi) = Some budi) by reflexivity.
  split; [exact H|]. split.
  - rewrite (proj1 (getAll_by_owner true budi None None backlog H)).
    vm_compute. reflexivity.
  - destruct (proj2 (proj2 (getAll_by_owner true budi None None hosted H)) eq_refl)
      as (l & Hl & _ & Hmem).
    exists l. split; [exact Hl | exact Hmem].
Defined.

(** X9. In remote mode an owner that is not a well-formed UUID is never
    looked up: [getAll] returns the empty list and [getById] returns null
    whatever the tables hold and whatever the service would answer. In
    local mode the same owner is matched like any other string. *)
Theorem remote_reads_skip_invalid_owner window uid id flt_users flt_query w :
  given (Some uid) = Some uid ->
  isValidUUID (Some uid) = false ->
  getAll true window (Some uid) None flt_users flt_query w = Return []
  /\ getById true window id (Some uid) flt_query w = Return None
  /\ getAll false window (Some uid) None flt_users flt_query w
     = Return (filter (fun item => prop_is item "user_id" uid) (ls_all window (storage w))).
Proof.
  intros Hgiven Hinvalid. cbn [given] in Hgiven.
  unfold getAll, getById. cbn [negb given]. rewrite Hgiven, Hinvalid.
  repeat split; reflexivity.
Qed.

Lemma remote_reads_skip_invalid_owner_witness :
  given (Some "not-a-uuid") = Some "not-a-uuid"
  /\ isValidUUID (Some "not-a-uuid") = false
  /\ getAll true true (Some "not-a-uuid") None None None hosted = Return []
  /\ getById true true "b1" (Some "not-a-uuid") None hosted = Return None.
Proof.
  assert (H1 : given (Some "not-a-uuid") = Some "not-a-uuid") by reflexivity.
  assert (H2 : isValidUUID (Some "not-a-uuid") = false) by reflexivity.
  destruct (remote_reads_skip_invalid_owner true "not-a-uuid" "b1" None None hosted H1 H2)
    as (Hall & Hone & _).
  split; [exact H1|]. split; [exact H2|]. split; [exact Hall | exact Hone].
Defined.

Lemma includes_owner_spec ids (item : UMKM) :
  includes_owner ids item = true <-> exists s, prop_is item "user_id" s /\ s ∈ ids.
Proof.
  unfold includes_owner, prop_is. split.
  - destruct (item !! "user_id") as [[s| | |]|]; try discriminate.
    intros H. apply bool_decide_eq_true in H. eauto.
  - intros (s & -> & Hs). apply bool_decide_eq_true. exact Hs.
Qed.

Lemma selected_owners ids (row : UMKM) :
  selected [FIn "user_id" ids] row = includes_owner ids row.
Proof. cbn. apply andb_true_r. Qed.

Lemma ids_of_jurisdiction {A} (rw_of : A -> option string) (id_of : A -> string)
    (rw s : string) (users : list A) :
  s ∈ List.map id_of (List.filter (fun u => bool_decide (rw_of u = Some rw)) users)
  <-> exists u, u ∈ users /\ rw_of u = Some rw /\ id_of u = s.
Proof.
  rewrite list_elem_of_In, in_map_iff. split.
  - intros (u & Hid & Hu). apply filter_In in Hu as [Hu Hrw].
    apply bool_decide_eq_true in Hrw. apply list_elem_of_In in Hu. eauto.
  - intros (u & Hu & Hrw & Hid). exists u. split; [exact Hid|].
    apply filter_In. split; [apply list_elem_of_In; exact Hu|].
    apply bool_decide_eq_true. exact Hrw.
Qed.

(** X10. [getAll] with a jurisdiction ignores the owner argument and returns
    the records whose owner is a user of that jurisdiction, and no others:
    in local mode the users are the entries of the registry in the browser,
    in remote mode (both requests honoured) the rows of the table
    ["users"]. When the jurisdiction has no user the result is the empty
    list. In local mode outside a browser the call throws a
    [ReferenceError]. *)
Theorem getAll_by_jurisdiction userId adminRW rw flt_users flt_query w :
  given adminRW = Some rw ->
  (exists l,
      getAll false true userId adminRW flt_users flt_query w = Return l
      /\ (forall item,
            item ∈ l <->
            item ∈ ls_umkm (storage w)
            /\ exists r, r ∈ ls_registered_users (storage w)
                         /\ User.rw (Registered.user r) = Some rw
                         /\ prop_is item "user_id" (Registered.id r)))
  /\ (exists l,
        getAll true true userId adminRW None None w = Return l
        /\ (forall item,
              item ∈ l <->
              item ∈ tbl_umkm (remote w)
              /\ exists u, u ∈ tbl_users (remote w)
                           /\ User.rw u = Some rw
                           /\ prop_is item "user_id" (User.id u)))
  /\ (Forall (fun r => User.rw (Registered.user r) <> Some rw)
        (ls_registered_users (storage w)) ->
      getAll false true userId adminRW flt_users flt_query w = Return [])
  /\ (Forall (fun u => User.rw u <> Some rw) (tbl_users (remote w)) ->
      getAll true true userId adminRW None flt_query w = Return [])
  /\ getAll false false userId adminRW flt_users flt_query w
     = Throw (ReferenceError "localStorage").
Proof.
  intros Hrw. unfold getAll. cbn [negb]. rewrite Hrw.
  split; [|split; [|split; [|split; [|reflexivity]]]].
  - eexists. split; [reflexivity|]. intros item. cbn [ls_all].
    rewrite list_elem_of_In, filter_In, <- list_elem_of_In, includes_owner_spec.
    split.
    + intros (Hin & s & Hs & Hids). split; [exact Hin|].
      apply (ids_of_jurisdiction (fun r => User.rw (Registered.user r)) Registered.id)
        in Hids as (r & Hr & Hrwr & <-). eauto.
    + intros (Hin & r & Hr & Hrwr & Hs). split; [exact Hin|].
      exists (Registered.id r). split; [exact Hs|].
      apply (ids_of_jurisdiction (fun r => User.rw (Registered.user r)) Registered.id).
      eauto.
  - unfold await, db_user_ids. cbn [error data].
    destruct (List.map User.id _) as [|u us] eqn:Hids.
    + exists []. split; [reflexivity|]. intros item. split; [intros H; inversion H|].
      intros (_ & u & Hu & Hrwu & _).
      assert (Hin : User.id u ∈ List.map User.id
                (List.filter (fun u => bool_decide (User.rw u = Some rw)) (tbl_users (remote w))))
        by (apply (ids_of_jurisdiction User.rw User.id); eauto).
      rewrite Hids in Hin. inversion Hin.
    + unfold getAll_run, db_select. cbn. eexists. split; [reflexivity|].
      intros item. rewrite merge_sort_Permutation.
      rewrite list_elem_of_In, filter_In, <- list_elem_of_In.
      rewrite selected_owners, includes_owner_spec, <- Hids. split.
      * intros (Hin & s & Hs & Hmem). split; [exact Hin|].
        apply (ids_of_jurisdiction User.rw User.id) in Hmem as (v & Hv & Hrwv & <-). eauto.
      * intros (Hin & v & Hv & Hrwv & Hs). split; [exact Hin|].
        exists (User.id v). split; [exact Hs|].
        apply (ids_of_jurisdiction User.rw User.id). eauto.
  - intros Hnone. cbn [ls_all].
    replace (List.filter _ (ls_registered_users (storage w))) with (@nil Registered.t).
    + cbn [List.map]. f_equal. induction (ls_umkm (storage w)) as [|x l IH]; [reflexivity|].
      cbn. replace (includes_owner [] x) with false; [exact IH|].
      unfold includes_owner. destruct (x !! "user_id") as [[s| | |]|]; reflexivity.
    + symmetry. induction Hnone as [|r l Hr _ IH]; [reflexivity|].
      cbn. rewrite bool_decide_eq_false_2 by exact Hr. exact IH.
  - intros Hnone. unfold await, db_user_ids. cbn [error data].
    replace (List.filter _ (tbl_users (remote w))) with (@nil User.t); [reflexivity|].
    symmetry. induction Hnone as [|u l Hu _ IH]; [reflexivity|].
    cbn. rewrite bool_decide_eq_false_2 by exact Hu. exact IH.
Qed.

Lemma getAll_by_jurisdiction_witness :
  given (Some "04") = Some "04"
  /\ (exists l,
        getAll false true None (Some "04") None None kampung = Return l
        /\ (forall item,
              item ∈ l <->
              item ∈ ls_umkm (storage kampung)
              /\ exists r, r ∈ ls_registered_users (storage kampung)
                           /\ User.rw (Registered.user r) = Some "04"
                           /\ prop_is item "user_id" (Registered.id r)))
  /\ getAll false true None (Some "04") None None kampung = Return [sari_shop].
Proof.
  assert (H : given (Some "04") = Some "04") by reflexivity.
  split; [exact H|]. split.
  - exact (proj1 (getAll_by_jurisdiction None (Some "04") "04" None None kampung H)).
  - vm_compute. reflexivity.
Defined.

(** ** What the writes leave alone *)

Lemma serve_users {A} flt db (honoured : Reply A * Database) :
  tbl_users (snd honoured) = tbl_users db ->
  tbl_users (snd (serve flt db honoured)) = tbl_users db.
Proof. intros H. destruct flt as [[e|x]|]; cbn; [reflexivity..|exact H]. Qed.

Lemma confined_remote {A} (w : World) (r : Awaited A * Database) :
  tbl_users (snd r) = tbl_users (remote w) ->
  confined true w (set_remote (snd r) w).
Proof.
  intros H. split; [repeat split|]. split; [exact H|]. split; [discriminate|reflexivity].
Qed.

Lemma confined_local window (l : list UMKM) (w : World) :
  confined false w (set_storage (ls_save window l (storage w)) w).
Proof.
  split; [destruct window; repeat split|]. split; [reflexivity|].
  split; [reflexivity|discriminate].
Qed.

Lemma confined_refl hasSupabase w : confined hasSupabase w w.
Proof. repeat split. Qed.

(** X11. [create], [update] and [delete] never write outside their mode: in
    local mode the remote tables are as before, in remote mode the browser
    storage is as before, and in neither mode are the table of users or the
    registry, the stored session and the password overrides of the session
    manager changed. *)
Theorem record_store_writes_confined
    hasSupabase window id payload userId rnd now flt srv_id srv_now w :
  confined hasSupabase w
    (snd (create hasSupabase window payload userId rnd now flt srv_id srv_now w))
  /\ confined hasSupabase w (snd (update hasSupabase window id payload userId now flt w))
  /\ confined hasSupabase w (snd (delete hasSupabase window id userId flt w)).
Proof.
  destruct hasSupabase; split; [|split| |split].
  - unfold create. cbn [negb].
    match goal with
    | |- context [serve flt (remote w) ?h] =>
        pose proof (serve_users flt (remote w) h eq_refl) as Hu;
        destruct (serve flt (remote w) h) as [[r|x] db] eqn:Hs
    end; cbn [snd] in Hu.
    + destruct (error r); cbn [snd];
        apply (confined_remote w (Resolved r, db)); exact Hu.
    + apply (confined_remote w (@Rejected UMKM x, db)); exact Hu.
  - unfold update. cbn [negb].
    destruct (negb (isValidUUID (Some userId))); [apply confined_refl|].
    match goal with
    | |- context [serve flt (remote w) ?h] =>
        assert (Hh : tbl_users (snd h) = tbl_users (remote w))
          by (unfold db_update_single;
              destruct (List.filter _ _) as [|? [|? ?]]; reflexivity);
        pose proof (serve_users flt (remote w) h Hh) as Hu;
        destruct (serve flt (remote w) h) as [[r|x] db] eqn:Hs
    end; cbn [snd] in Hu.
    + destruct (error r); cbn [snd];
        apply (confined_remote w (Resolved r, db)); exact Hu.
    + apply (confined_remote w (@Rejected UMKM x, db)); exact Hu.
  - unfold delete. cbn [negb].
    destruct (negb (isValidUUID (Some userId))); [apply confined_refl|].
    match goal with
    | |- context [serve flt (remote w) ?h] =>
        pose proof (serve_users flt (remote w) h eq_refl) as Hu;
        destruct (serve flt (remote w) h) as [[r|x] db] eqn:Hs
    end; cbn [snd] in Hu.
    + destruct (error r); cbn [snd];
        apply (confined_remote w (Resolved r, db)); exact Hu.
    + apply (confined_remote w (@Rejected unit x, db)); exact Hu.
  - apply confined_local.
  - unfold update. cbn [negb].
    destruct (list_find _ _) as [[i x]|]; [apply confined_local | apply confined_refl].
  - unfold delete. cbn [negb].
    destruct (_ =? _)%nat; [apply confined_refl | apply confined_local].
Qed.

(** ** Registration date and reads by identifier *)

(** X12. In remote mode [create] submits a registration date with every row:
    the one of the payload when it has a truthy one, otherwise the time of
    the call; the row returned by an honoured insertion carries it and is
    in the table afterwards. In local mode no date is supplied: the record
    has the [tanggal_daftar] of the payload or none. *)
Theorem create_registration_date window payload userId rnd now srv_id srv_now flt w :
  (exists item,
      fst (create true window payload userId rnd now None srv_id srv_now w)
      = Return (Some item)
      /\ item ∈ tbl_umkm (remote (snd (create true window payload userId rnd now None
                                         srv_id srv_now w)))
      /\ (truthy (payload !! "tanggal_daftar") = false ->
          item !! "tanggal_daftar" = Some (VStr (iso now)))
      /\ (truthy (payload !! "tanggal_daftar") = true ->
          item !! "tanggal_daftar" = payload !! "tanggal_daftar"))
  /\ (exists item,
        fst (create false window payload userId rnd now flt srv_id srv_now w)
        = Return (Some item)
        /\ item !! "tanggal_daftar" = payload !! "tanggal_daftar").
Proof.
  split.
  - unfold create. cbn [negb serve db_insert fst snd error data].
    eexists. split; [reflexivity|]. split; [cbn; apply list_elem_of_here|].
    rewrite (lookup_insert_ne payload "user_id" "tanggal_daftar") by discriminate.
    split; intros Htruthy; rewrite Htruthy.
    + apply lookup_union_Some_l. apply lookup_insert_eq.
    + destruct (payload !! "tanggal_daftar") as [v|]; [|discriminate].
      apply lookup_union_Some_l. apply lookup_insert_eq.
  - unfold create. cbn [negb fst]. eexists. split; [reflexivity|].
    rewrite !lookup_insert_ne by discriminate. reflexivity.
Qed.

Lemma filter_singleton_selected (f : UMKM -> bool) (l : list UMKM) (row : UMKM) :
  List.filter f l = [row] -> row ∈ l /\ f row = true.
Proof.
  intros H. assert (Hin : In row (List.filter f l)) by (rewrite H; left; reflexivity).
  apply filter_In in Hin as [Hin Hf]. split; [apply list_elem_of_In; exact Hin|exact Hf].
Qed.

(** X13. What [getById] returns, if anything, is a stored record with the
    identifier asked for, and with the owner asked for when one is given:
    in both modes, whatever the service answers. In local mode only the
    first record with that identifier is looked at. *)
Theorem getById_sound hasSupabase window id userId flt w item :
  getById hasSupabase window id userId flt w = Return (Some item) ->
  prop_is item "id" id
  /\ (forall uid, given userId = Some uid -> prop_is item "user_id" uid)
  /\ (if hasSupabase then item ∈ tbl_umkm (remote w)
      else exists i,
          list_find (fun u => prop_is u "id" id) (ls_all window (storage w))
          = Some (i, item)).
Proof.
  unfold getById. destruct hasSupabase; cbn [negb].
  - destruct (given userId) as [uid|].
    + destruct (negb (isValidUUID (Some uid))); [discriminate|].
      destruct flt as [[e|x]|]; cbn; try discriminate.
      unfold db_select_single.
      destruct (List.filter _ _) as [|row [|? ?]] eqn:Hsel; cbn; try discriminate.
      intros [= <-]. apply filter_singleton_selected in Hsel as [Hin Hsel].
      cbn in Hsel. rewrite andb_true_r in Hsel. apply andb_prop in Hsel as [H1 H2].
      apply bool_decide_eq_true in H1, H2.
      split; [exact H1|]. split; [intros ? [= <-]; exact H2 | exact Hin].
    + destruct flt as [[e|x]|]; cbn; try discriminate.
      unfold db_select_single.
      destruct (List.filter _ _) as [|row [|? ?]] eqn:Hsel; cbn; try discriminate.
      intros [= <-]. apply filter_singleton_selected in Hsel as [Hin Hsel].
      cbn in Hsel. rewrite andb_true_r in Hsel. apply bool_decide_eq_true in Hsel.
      split; [exact Hsel|]. split; [discriminate | exact Hin].
  - destruct (list_find _ _) as [[i it]|] eqn:Hfind; cbn [fmap option_fmap option_map snd].
    + pose proof (proj1 (list_find_Some _ _ _ _) Hfind) as (_ & Hid & _).
      destruct (given userId) as [uid|].
      * destruct (bool_decide (prop_is it "user_id" uid)) eqn:Hown; [|discriminate].
        intros [= <-]. apply bool_decide_eq_true in Hown.
        split; [exact Hid|]. split; [intros ? [= <-]; exact Hown | eauto].
      * intros [= <-]. split; [exact Hid|]. split; [discriminate | eauto].
    + destruct (given userId); discriminate.
Qed.

Lemma getById_sound_witness :
  getById false true "b1" (Some budi) None offline = Return (Some toko_bunga_row)
  /\ prop_is toko_bunga_row "id" "b1"
  /\ (forall uid, given (Some budi) = Some uid -> prop_is toko_bunga_row "user_id" uid).
Proof.
  assert (H : getById false true "b1" (Some budi) None offline = Return (Some toko_bunga_row))
    by (vm_compute; reflexivity).
  destruct (getById_sound false true "b1" (Some budi) None offline toko_bunga_row H)
    as (Hid & Howner & _).
  split; [exact H|]. split; [exact Hid | exact Howner].
Defined.

(** ** The session manager: single calls *)



Lemma login_registered_outcome username password rnd s :
  (fst (login_registered username password rnd s) = false ->
   snd (login_registered username password rnd s) = s)
  /\ (fst (login_registered username password rnd s) = true ->
      exists u,
        user (snd (login_registered username password rnd s)) = Some u
        /\ ls_auth_user (browser (snd (login_registered username password rnd s))) = Some u
        /\ User.username u = username)
  /\ ls_admin_passwords (browser (snd (login_registered username password rnd s)))
     = ls_admin_passwords (browser s)
  /\ ls_umkm (browser (snd (login_registered username password rnd s)))
     = ls_umkm (browser s).
Proof.
  unfold login_registered.
  destruct (list_find _ _) as [[found foundUser]|] eqn:Hfound.
  - apply list_find_Some in Hfound as (_ & [Hname _] & _).
    destruct (negb _); cbn [fst snd].
    + split; [discriminate|]. split; [intros _; eexists; repeat split; exact Hname|].
      destruct (list_find _ (<[found:=_]> _)) as [[userIndex y]|]; split; reflexivity.
    + split; [discriminate|]. split; [intros _; eexists; repeat split; exact Hname|].
      split; reflexivity.
  - cbn [fst snd]. split; [reflexivity|]. split; [discriminate|]. split; reflexivity.
Qed.

(** X15. A [login] that returns [false] changes nothing, neither the session
    nor the storage. A [login] that returns [true] leaves a session that is
    held both in the React state and in the browser; it never touches the
    password overrides, the business records or the user names of the
    registry. *)
Theorem login_outcome username password rwChoice rnd (s : Session) :
  (fst (login username password rwChoice rnd s) = false ->
   snd (login username password rwChoice rnd s) = s)
  /\ (fst (login username password rwChoice rnd s) = true ->
      exists u,
        user (snd (login username password rwChoice rnd s)) = Some u
        /\ ls_auth_user (browser (snd (login username password rwChoice rnd s))) = Some u)
  /\ ls_admin_passwords (browser (snd (login username password rwChoice rnd s)))
     = ls_admin_passwords (browser s)
  /\ ls_umkm (browser (snd (login username password rwChoice rnd s))) = ls_umkm (browser s)
  /\ names (snd (login username password rwChoice rnd s)) = names s.
Proof.
  assert (Hreg :
    (fst (login_registered username password rnd s) = false ->
     snd (login_registered username password rnd s) = s)
    /\ (fst (login_registered username password rnd s) = true ->
        exists u,
          user (snd (login_registered username password rnd s)) = Some u
          /\ ls_auth_user (browser (snd (login_registered username password rnd s))) = Some u)
    /\ ls_admin_passwords (browser (snd (login_registered username password rnd s)))
       = ls_admin_passwords (browser s)
    /\ ls_umkm (browser (snd (login_registered username password rnd s)))
       = ls_umkm (browser s)).
  { destruct (login_registered_outcome username password rnd s) as (H1 & H2 & H3 & H4).
    split; [exact H1|]. split; [|split; assumption].
    intros Ht. destruct (H2 Ht) as (u & Hu & Ha & _). eauto. }
  assert (Hsame :
    (fst (false, s) = false -> snd (false, s) = s)
    /\ (fst (false, s) = true ->
        exists u, user (snd (false, s)) = Some u
                  /\ ls_auth_user (browser (snd (false, s))) = Some u)
    /\ ls_admin_passwords (browser (snd (false, s))) = ls_admin_passwords (browser s)
    /\ ls_umkm (browser (snd (false, s))) = ls_umkm (browser s)).
  { cbn. split; [reflexivity|]. split; [discriminate|]. split; reflexivity. }
  assert (Hin : forall a,
    (fst (true, sign_in a s) = false -> snd (true, sign_in a s) = s)
    /\ (fst (true, sign_in a s) = true ->
        exists u, user (snd (true, sign_in a s)) = Some u
                  /\ ls_auth_user (browser (snd (true, sign_in a s))) = Some u)
    /\ ls_admin_passwords (browser (snd (true, sign_in a s))) = ls_admin_passwords (browser s)
    /\ ls_umkm (browser (snd (true, sign_in a s))) = ls_umkm (browser s)).
  { intros a. cbn. split; [discriminate|]. split; [eauto|]. split; reflexivity. }
  assert (Hmain :
    (fst (login username password rwChoice rnd s) = false ->
     snd (login username password rwChoice rnd s) = s)
    /\ (fst (login username password rwChoice rnd s) = true ->
        exists u,
          user (snd (login username password rwChoice rnd s)) = Some u
          /\ ls_auth_user (browser (snd (login username password rwChoice rnd s))) = Some u)
    /\ ls_admin_passwords (browser (snd (login username password rwChoice rnd s)))
       = ls_admin_passwords (browser s)
    /\ ls_umkm (browser (snd (login username password rwChoice rnd s)))
       = ls_umkm (browser s)).
  { unfold login.
    repeat (match goal with
            | |- context [match ?x with _ => _ end] => destruct x
            end; first [exact Hsame | exact Hreg | apply Hin | idtac]). }
  destruct Hmain as (H1 & H2 & H3 & H4).
  repeat (split; [assumption|]). apply names_login.
Qed.

(** X16. [register] never opens a session: the React state, the stored
    session, the password overrides and the business records are as before.
    When it fails nothing at all changes; when it succeeds the registry is
    the old one with the new user at its end; and the user name [admin] is
    refused in every state. *)
Theorem register_effect userData rnd now (s : Session) :
  user (snd (register userData rnd now s)) = user s
  /\ ls_auth_user (browser (snd (register userData rnd now s))) = ls_auth_user (browser s)
  /\ ls_admin_passwords (browser (snd (register userData rnd now s)))
     = ls_admin_passwords (browser s)
  /\ ls_umkm (browser (snd (register userData rnd now s))) = ls_umkm (browser s)
  /\ (success (fst (register userData rnd now s)) = false ->
      snd (register userData rnd now s) = s)
  /\ (success (fst (register userData rnd now s)) = true ->
      ls_registered_users (browser (snd (register userData rnd now s)))
      = (ls_registered_users (browser s) ++ [newUser userData rnd now])%list
      /\ (RegisterData.username userData ∉ names s)
      /\ RegisterData.username userData <> "admin")
  /\ (RegisterData.username userData = "admin" ->
      register userData rnd now s = (mkOutcome false "Username tidak tersedia", s)).
Proof.
  unfold register.
  destruct (String.eqb_spec (RegisterData.username userData) "admin") as [Hadmin|Hadmin].
  - repeat (split; [first [reflexivity | discriminate]|]). reflexivity.
  - destruct (list_find _ _) as [[i r]|] eqn:Hfind.
    + repeat (split; [first [reflexivity | discriminate]|]). contradiction.
    + cbn [fst snd success]. repeat (split; [first [reflexivity | discriminate]|]).
      split; [|contradiction]. intros _. split; [reflexivity|]. split; [|exact Hadmin].
      intros Hin. apply list_elem_of_fmap in Hin as (r & Hname & Hr).
      pose proof (proj1 (list_find_None _ _) Hfind) as Hnone.
      apply (proj1 (Forall_forall _ _) Hnone r); [apply list_elem_of_In; exact Hr|].
      symmetry. exact Hname.
Qed.

(** ** The session manager: invariants of sequences of calls *)

Lemma in_step_sign_in u s : in_step (sign_in u s).
Proof. reflexivity. Qed.

Lemma in_step_login username password rwChoice rnd s :
  in_step s -> in_step (snd (login username password rwChoice rnd s)).
Proof.
  intros Hs. unfold login, login_registered.
  repeat (match goal with
          | |- context [match ?x with _ => _ end] => destruct x
          end; first [exact Hs | apply in_step_sign_in | idtac]).
Qed.

Lemma in_step_call c s : in_step s -> in_step (call c s).
Proof.
  intros Hs. destruct c as [username password rwChoice rnd|userData rnd now| |old new now];
    cbn [call].
  - apply in_step_login. exact Hs.
  - unfold register.
    repeat (match goal with
            | |- context [match ?x with _ => _ end] => destruct x
            end; first [exact Hs | idtac]).
  - reflexivity.
  - unfold changePassword.
    destruct (user s) as [u|] eqn:Hu; [|exact Hs].
    destruct (User.role u).
    + repeat (match goal with
              | |- context [if ?x then _ else _] => destruct x
              end; first [exact Hs | apply in_step_sign_in | idtac]).
    + destruct (list_find _ _) as [[userIndex entry]|]; [|exact Hs].
      repeat (match goal with
              | |- context [if ?x then _ else _] => destruct x
              end; first [exact Hs | idtac]).
      unfold in_step in *. cbn. rewrite <- Hu. exact Hs.
Qed.

(** X17. The two copies of the session never drift apart: if the React state
    and the session stored in the browser agree, they still agree after any
    sequence of [login], [register], [logout] and [changePassword] calls,
    successful or not. *)
Theorem session_copies_agree (cs : list Call) (s : Session) :
  user s = ls_auth_user (browser s) ->
  user (calls cs s) = ls_auth_user (browser (calls cs s)).
Proof.
  revert s. induction cs as [|c cs IH]; intros s Hs; [exact Hs|].
  change (calls (c :: cs) s) with (calls cs (call c s)).
  apply IH. apply in_step_call. exact Hs.
Qed.

Lemma session_copies_agree_witness :
  user mounted = ls_auth_user (browser mounted)
  /\ user (calls [CRegister sari_data sevens noon;
                  CLogin "sari" "melati99" None sevens;
                  CChangePassword "melati99" "kenanga7" noon] mounted)
     = ls_auth_user
         (browser (calls [CRegister sari_data sevens noon;
                          CLogin "sari" "melati99" None sevens;
                          CChangePassword "melati99" "kenanga7" noon] mounted)).
Proof.
  assert (H : user mounted = ls_auth_user (browser mounted)) by reflexivity.
  split; [exact H|]. exact (session_copies_agree _ mounted H).
Defined.

Lemma names_changePassword old new now s :
  names (snd (changePassword old new now s)) = names s.
Proof.
  unfold changePassword.
  destruct (user s) as [u|]; [|reflexivity].
  destruct (User.role u).
  - repeat (match goal with
            | |- context [if ?x then _ else _] => destruct x
            end; try reflexivity).
  - destruct (list_find _ _) as [[userIndex entry]|] eqn:Hfind; [|reflexivity].
    repeat (match goal with
            | |- context [if ?x then _ else _] => destruct x
            end; try reflexivity).
    apply list_find_Some in Hfind as (Hfind & _).
    unfold names. cbn. apply (names_insert_same _ _ _ entry Hfind). reflexivity.
Qed.

Lemma ids_login_registered username password rnd s :
  Forall (fun r => isValidUUID (Some (Registered.id r)) = true)
    (ls_registered_users (browser s)) ->
  Forall (fun r => isValidUUID (Some (Registered.id r)) = true)
    (ls_registered_users (browser (snd (login_registered username password rnd s)))).
Proof.
  intros Hids. unfold login_registered.
  destruct (list_find _ _) as [[found foundUser]|]; [|exact Hids].
  destruct (negb _); [|exact Hids]. cbn [snd].
  destruct (list_find _ (<[found:=_]> _)) as [[userIndex y]|]; [|exact Hids].
  cbn. apply Forall_insert; [apply Forall_insert; [exact Hids|]|]; apply generateUUID_valid.
Qed.

Lemma ids_login username password rwChoice rnd s :
  Forall (fun r => isValidUUID (Some (Registered.id r)) = true)
    (ls_registered_users (browser s)) ->
  Forall (fun r => isValidUUID (Some (Registered.id r)) = true)
    (ls_registered_users (browser (snd (login username password rwChoice rnd s)))).
Proof.
  intros Hids. unfold login.
  repeat (match goal with
          | |- context [login_registered ?a ?b ?c ?d] =>
              apply (ids_login_registered a b c d); exact Hids
          | |- context [match ?x with _ => _ end] => destruct x
          end; try exact Hids).
Qed.

Lemma tidy_call c s : tidy s -> tidy (call c s).
Proof.
  intros (Hnodup & Hadmin & Hids).
  destruct c as [username password rwChoice rnd|userData rnd now| |old new now];
    cbn [call].
  - split; [|split]; rewrite ?names_login; try assumption.
    apply ids_login. exact Hids.
  - unfold register.
    destruct (String.eqb_spec (RegisterData.username userData) "admin") as [Ha|Ha];
      [split; [|split]; assumption|].
    destruct (list_find _ _) as [[i r]|] eqn:Hfind; [split; [|split]; assumption|].
    assert (Hnew : RegisterData.username userData ∉ names s).
    { intros Hin. apply list_elem_of_fmap in Hin as (r & Hname & Hr).
      pose proof (proj1 (list_find_None _ _) Hfind) as Hnone.
      apply (proj1 (Forall_forall _ _) Hnone r); [apply list_elem_of_In; exact Hr|].
      symmetry. exact Hname. }
    unfold tidy, names. cbn [snd browser set_ls_registered_users ls_registered_users].
    rewrite fmap_app. split; [|split].
    + apply (proj2 (list.NoDup_app _ _)). split; [exact Hnodup|]. split.
      * intros x Hx Hx'. apply list_elem_of_singleton in Hx'. cbn in Hx'. subst x.
        exact (Hnew Hx).
      * apply NoDup_singleton.
    + intros Hin. apply elem_of_app in Hin as [Hin|Hin]; [exact (Hadmin Hin)|].
      apply list_elem_of_singleton in Hin. cbn in Hin. congruence.
    + apply Forall_app. split; [exact Hids|]. apply Forall_singleton.
      apply generateUUID_valid.
  - split; [|split]; assumption.
  - split; [|split]; rewrite ?names_changePassword; try assumption.
    unfold changePassword.
    destruct (user s) as [u|]; [|exact Hids].
    destruct (User.role u).
    + repeat (match goal with
              | |- context [if ?x then _ else _] => destruct x
              end; try exact Hids).
    + destruct (list_find _ _) as [[userIndex entry]|] eqn:Hfind; [|exact Hids].
      repeat (match goal with
              | |- context [if ?x then _ else _] => destruct x
              end; try exact Hids).
      apply list_find_Some in Hfind as (Hfind & _).
      cbn. apply Forall_insert; [exact Hids|].
      exact (Forall_lookup_1 _ _ _ _ Hids Hfind).
Qed.

(** X18. The registry stays in order under any sequence of calls: if user
    names are pairwise different, none is [admin] and every identifier is a
    well-formed UUID, the same holds afterwards. In particular this holds
    of every state reached from an empty registry. *)
Theorem registry_stays_tidy (cs : list Call) (s : Session) :
  tidy s -> tidy (calls cs s).
Proof.
  revert s. induction cs as [|c cs IH]; intros s Hs; [exact Hs|].
  change (calls (c :: cs) s) with (calls cs (call c s)).
  apply IH. apply tidy_call. exact Hs.
Qed.

Lemma registry_stays_tidy_witness :
  tidy mounted
  /\ tidy (calls [CRegister sari_data sevens noon; CRegister budi_data sevens noon;
                  CRegister sari_data sevens noon; CLogin "budi" "rahasia1" None sevens]
             mounted).
Proof.
  assert (H : tidy mounted).
  { split; [apply NoDup_nil_2|]. split; [apply not_elem_of_nil | apply Forall_nil_2]. }
  split; [exact H|]. exact (registry_stays_tidy _ mounted H).
Defined.

(** ** The session manager: how calls compose *)

Lemma login_registered_succeeds username password rnd s r :
  r ∈ ls_registered_users (browser s) ->
  Registered.username r = username -> Registered.password r = password ->
  fst (login_registered username password rnd s) = true.
Proof.
  intros Hin Hname Hpass. unfold login_registered.
  destruct (list_find_elem_of
              (fun u => Registered.username u = username /\ Registered.password u = password)
              _ r Hin (conj Hname Hpass)) as [[i x] ->].
  destruct (negb _); reflexivity.
Qed.

Lemma login_registered_fails username password rnd s :
  Forall (fun r => ~ (Registered.username r = username /\ Registered.password r = password))
    (ls_registered_users (browser s)) ->
  fst (login_registered username password rnd s) = false.
Proof.
  intros Hnone. unfold login_registered.
  rewrite (proj2 (list_find_None _ _) Hnone). reflexivity.
Qed.

Lemma login_ordinary username password rwChoice rnd s :
  username <> "admin" ->
  login username password rwChoice rnd s = login_registered username password rnd s.
Proof. intros H. unfold login. rewrite (proj2 (String.eqb_neq _ _) H). reflexivity. Qed.

(** X19. After a registered user has changed the password successfully, a
    login under the user name of the entry that was rewritten succeeds with
    the new password; and when the user names of the registry are pairwise
    different, a login with the old password fails. *)
Theorem changed_password_takes_effect old new now (s : Session) u i entry rwChoice rnd :
  user s = Some u -> User.role u = role_user ->
  list_find (fun r => Registered.id r = User.id u) (ls_registered_users (browser s))
  = Some (i, entry) ->
  Registered.username entry <> "admin" ->
  success (fst (changePassword old new now s)) = true ->
  fst (login (Registered.username entry) new rwChoice rnd
         (snd (changePassword old new now s))) = true
  /\ (NoDup (names s) ->
      fst (login (Registered.username entry) old rwChoice rnd
             (snd (changePassword old new now s))) = false).
Proof.
  intros Hu Hrole Hfind Hname. unfold changePassword. rewrite Hu, Hrole, Hfind.
  destruct (negb _); [discriminate|].
  destruct (_ <? _)%nat; [discriminate|].
  destruct (String.eqb_spec old new) as [|Hdiff]; [discriminate|]. intros _.
  cbn [snd]. rewrite !login_ordinary by exact Hname.
  apply list_find_Some in Hfind as (Hi & _ & _).
  split.
  - apply (login_registered_succeeds _ _ _ _ (rotate new (iso now) entry));
      [|reflexivity|reflexivity].
    cbn. apply list_elem_of_lookup. exists i.
    apply list_lookup_insert_eq. eapply lookup_lt_Some. exact Hi.
  - intros Hnodup. apply login_registered_fails. cbn.
    apply Forall_lookup. intros j r Hj [Hrname Hrpass].
    destruct (decide (i = j)) as [<-|Hij].
    + rewrite list_lookup_insert_eq in Hj by (eapply lookup_lt_Some; exact Hi).
      injection Hj as <-. cbn in Hrpass. congruence.
    + rewrite list_lookup_insert_ne in Hj by exact Hij.
      apply Hij. apply (NoDup_lookup _ _ _ (Registered.username entry) Hnodup).
      * unfold names. rewrite list_lookup_fmap, Hi. reflexivity.
      * unfold names. rewrite list_lookup_fmap, Hj. cbn. rewrite Hrname. reflexivity.
Qed.

Lemma changed_password_takes_effect_witness :
  user sari_session = Some sari_user
  /\ User.role sari_user = role_user
  /\ list_find (fun r => Registered.id r = User.id sari_user)
       (ls_registered_users (browser sari_session))
     = Some (0, newUser sari_data sevens noon)
  /\ Registered.username (newUser sari_data sevens noon) <> "admin"
  /\ success (fst (changePassword "melati99" "kenanga7" noon sari_session)) = true
  /\ NoDup (names sari_session)
  /\ fst (login "sari" "kenanga7" None sevens
            (snd (changePassword "melati99" "kenanga7" noon sari_session))) = true
  /\ fst (login "sari" "melati99" None sevens
            (snd (changePassword "melati99" "kenanga7" noon sari_session))) = false.
Proof.
  assert (H1 : user sari_session = Some sari_user) by reflexivity.
  assert (H2 : User.role sari_user = role_user) by reflexivity.
  assert (H3 : list_find (fun r => Registered.id r = User.id sari_user)
                 (ls_registered_users (browser sari_session))
               = Some (0, newUser sari_data sevens noon)) by (vm_compute; reflexivity).
  assert (H4 : Registered.username (newUser sari_data sevens noon) <> "admin")
    by discriminate.
  assert (H5 : success (fst (changePassword "melati99" "kenanga7" noon sari_session)) = true)
    by reflexivity.
  assert (H6 : NoDup (names sari_session)) by apply NoDup_singleton.
  destruct (changed_password_takes_effect "melati99" "kenanga7" noon sari_session sari_user
              0 (newUser sari_data sevens noon) None sevens H1 H2 H3 H4 H5) as [Hnew Hold].
  repeat (split; [assumption|]). exact (Hold H6).
Defined.

(** X20. After an admin session has changed its password successfully,
    [login("admin", newPassword)] succeeds without asking for a
    jurisdiction and signs in a predefined admin whose override is the new
    password, with [must_change_password] cleared. *)
Theorem admin_new_password_logs_in old new now (s : Session) u rwChoice rnd :
  user s = Some u -> User.role u = role_admin -> predefined u ->
  success (fst (changePassword old new now s)) = true ->
  exists a,
    a ∈ ADMIN_USERS
    /\ custom_password
         (ls_admin_passwords (browser (snd (changePassword old new now s)))) (User.id a)
       = Some new
    /\ login "admin" new rwChoice rnd (snd (changePassword old new now s))
       = (true,
          sign_in (User.set_must_change_password false a)
            (snd (changePassword old new now s))).
Proof.
  intros Hu Hrole (a & Ha & Hid & _) Hok.
  pose proof (changePassword_admin_records _ _ _ _ _ Hu Hrole Hok) as Hrec.
  assert (Hnew : String.eqb new DEFAULT_ADMIN_PASSWORD = false).
  { revert Hok. unfold changePassword. rewrite Hu, Hrole.
    destruct (negb _); [discriminate|].
    destruct (_ <? _)%nat eqn:Hlen; [discriminate|]. intros _.
    apply Nat.ltb_ge in Hlen. apply String.eqb_neq. intros ->. cbn in Hlen. lia. }
  unfold login. cbn [String.eqb Ascii.eqb Bool.eqb]. rewrite Hnew.
  rewrite Hid in Hrec.
  destruct (list_find_elem_of
              (fun a => custom_password
                          (ls_admin_passwords (browser (snd (changePassword old new now s))))
                          (User.id a) = Some new)
              ADMIN_USERS a Ha Hrec) as [[j b] Hfind].
  rewrite Hfind. apply list_find_Some in Hfind as (Hj & Hb & _).
  exists b. split; [apply list_elem_of_lookup; eauto|]. split; [exact Hb | reflexivity].
Qed.

Lemma admin_new_password_logs_in_witness :
  user ketua_session = Some ketua_rw01
  /\ User.role ketua_rw01 = role_admin
  /\ predefined ketua_rw01
  /\ success (fst (changePassword "admin" "rahasia123" noon ketua_session)) = true
  /\ exists a,
      a ∈ ADMIN_USERS
      /\ login "admin" "rahasia123" None sevens
           (snd (changePassword "admin" "rahasia123" noon ketua_session))
         = (true,
            sign_in (User.set_must_change_password false a)
              (snd (changePassword "admin" "rahasia123" noon ketua_session))).
Proof.
  assert (H1 : user ketua_session = Some ketua_rw01) by reflexivity.
  assert (H2 : User.role ketua_rw01 = role_admin) by reflexivity.
  assert (H3 : predefined ketua_rw01) by apply predefined_self, list_elem_of_here.
  assert (H4 : success (fst (changePassword "admin" "rahasia123" noon ketua_session)) = true)
    by reflexivity.
  destruct (admin_new_password_logs_in "admin" "rahasia123" noon ketua_session ketua_rw01
              None sevens H1 H2 H3 H4) as (a & Ha & _ & Hlogin).
  repeat (split; [assumption|]). exists a. split; [exact Ha | exact Hlogin].
Defined.

(** X21. A successful [login] under a user name other than [admin] opens the
    session of a registry entry: after the call the registry holds an entry
    with that user name and password whose identifier is a well-formed UUID
    (a fresh one if the stored one was not), and the session is that entry
    without its password. *)
Theorem login_opens_registered_session username password rwChoice rnd (s : Session) :
  username <> "admin" ->
  fst (login username password rwChoice rnd s) = true ->
  exists r,
    r ∈ ls_registered_users (browser (snd (login username password rwChoice rnd s)))
    /\ user (snd (login username password rwChoice rnd s)) = Some (Registered.user r)
    /\ Registered.username r = username
    /\ Registered.password r = password
    /\ isValidUUID (Some (Registered.id r)) = true.
Proof.
  intros Hname. rewrite login_ordinary by exact Hname. unfold login_registered.
  destruct (list_find _ _) as [[found foundUser]|] eqn:Hfound; [|discriminate].
  apply list_find_Some in Hfound as (Hfound & [Hu Hp] & _).
  destruct (negb _) eqn:Hvalid; cbn [fst snd]; intros _.
  - assert (Hin : Registered.set_id (generateUUID rnd) foundUser
                  ∈ <[found := Registered.set_id (generateUUID rnd) foundUser]>
                      (ls_registered_users (browser s))).
    { apply list_elem_of_lookup. exists found. apply list_lookup_insert_eq.
      eapply lookup_lt_Some. exact Hfound. }
    destruct (list_find_elem_of (fun u => Registered.username u = username) _ _ Hin Hu)
      as [[userIndex y] Hindex].
    rewrite Hindex. apply list_find_Some in Hindex as (Hindex & _).
    exists (Registered.set_id (generateUUID rnd) foundUser).
    split; [|repeat split; try assumption; apply generateUUID_valid].
    cbn. apply list_elem_of_lookup. exists userIndex. apply list_lookup_insert_eq.
    eapply lookup_lt_Some. exact Hindex.
  - exists foundUser. split; [cbn; apply list_elem_of_lookup; eauto|].
    repeat split; try assumption. apply negb_false_iff in Hvalid. exact Hvalid.
Qed.

Lemma login_opens_registered_session_witness :
  "sari" <> "admin"
  /\ fst (login "sari" "melati99" None sevens with_sari) = true
  /\ exists r,
      r ∈ ls_registered_users (browser (snd (login "sari" "melati99" None sevens with_sari)))
      /\ user (snd (login "sari" "melati99" None sevens with_sari))
         = Some (Registered.user r)
      /\ isValidUUID (Some (Registered.id r)) = true.
Proof.
  assert (H1 : "sari" <> "admin") by discriminate.
  assert (H2 : fst (login "sari" "melati99" None sevens with_sari) = true) by reflexivity.
  destruct (login_opens_registered_session "sari" "melati99" None sevens with_sari H1 H2)
    as (r & Hr & Hs & _ & _ & Hv).
  split; [exact H1|]. split; [exact H2|]. exists r. repeat split; assumption.
Defined.

(** ** The effect run on mounting *)

Lemma migrate_map_valid rnds k users :
  Forall (fun r => isValidUUID (Some (Registered.id r)) = true)
    (fst (migrate_map rnds k users)).
Proof.
  revert k. induction users as [|u rest IH]; intros k; cbn [migrate_map]; [constructor|].
  destruct (negb _) eqn:Hu.
  - specialize (IH (S k)). destruct (migrate_map rnds (S k) rest) as [rest' k'].
    cbn. constructor; [apply generateUUID_valid | exact IH].
  - specialize (IH k). destruct (migrate_map rnds k rest) as [rest' k'].
    cbn. constructor; [apply negb_false_iff; exact Hu | exact IH].
Qed.

Lemma migrate_map_settled rnds k users :
  Forall (fun r => isValidUUID (Some (Registered.id r)) = true) users ->
  migrate_map rnds k users = (users, k).
Proof.
  induction 1 as [|u rest Hu _ IH]; cbn [migrate_map]; [reflexivity|].
  rewrite Hu. cbn [negb]. rewrite IH. reflexivity.
Qed.

Lemma migrate_map_count rnds k users :
  k <= snd (migrate_map rnds k users)
  /\ (snd (migrate_map rnds k users) = k -> fst (migrate_map rnds k users) = users).
Proof.
  revert k. induction users as [|u rest IH]; intros k; cbn [migrate_map]; [split; auto|].
  destruct (negb _).
  - specialize (IH (S k)). destruct (migrate_map rnds (S k) rest) as [rest' k'].
    cbn in *. split; [lia|]. intros ->. lia.
  - specialize (IH k). destruct (migrate_map rnds k rest) as [rest' k'].
    cbn in *. destruct IH as [Hle Hsame]. split; [exact Hle|].
    intros Hk. rewrite (Hsame Hk). reflexivity.
Qed.

Lemma migrate_map_credentials rnds k users :
  Registered.username <$> fst (migrate_map rnds k users) = Registered.username <$> users
  /\ Registered.password <$> fst (migrate_map rnds k users) = Registered.password <$> users.
Proof.
  revert k. induction users as [|u rest IH]; intros k; cbn [migrate_map]; [split; reflexivity|].
  destruct (negb _).
  - specialize (IH (S k)). destruct (migrate_map rnds (S k) rest) as [rest' k'].
    cbn in *. destruct IH as [-> ->]. split; reflexivity.
  - specialize (IH k). destruct (migrate_map rnds k rest) as [rest' k'].
    cbn in *. destruct IH as [-> ->]. split; reflexivity.
Qed.

Lemma migrateUsersToUUID_registry rnds s :
  ls_registered_users (browser (fst (migrateUsersToUUID rnds s)))
  = fst (migrate_map rnds 0 (ls_registered_users (browser s)))
  /\ user (fst (migrateUsersToUUID rnds s)) = user s
  /\ ls_auth_user (browser (fst (migrateUsersToUUID rnds s))) = ls_auth_user (browser s)
  /\ ls_admin_passwords (browser (fst (migrateUsersToUUID rnds s)))
     = ls_admin_passwords (browser s)
  /\ ls_umkm (browser (fst (migrateUsersToUUID rnds s))) = ls_umkm (browser s).
Proof.
  unfold migrateUsersToUUID.
  pose proof (migrate_map_count rnds 0 (ls_registered_users (browser s))) as [_ Hsame].
  destruct (migrate_map rnds 0 (ls_registered_users (browser s))) as [updated k].
  cbn [fst snd] in *. destruct k as [|k]; cbn.
  - rewrite (Hsame eq_refl). repeat split.
  - repeat split.
Qed.

Lemma mount_eq rnds s :
  mount rnds s
  = migrateCurrentUser rnds (snd (migrateUsersToUUID rnds s)) (fst (migrateUsersToUUID rnds s)).
Proof. unfold mount. destruct (migrateUsersToUUID rnds s). reflexivity. Qed.

Lemma mount_ids rnds (s : Session) :
  Forall (fun r => isValidUUID (Some (Registered.id r)) = true)
    (ls_registered_users (browser (mount rnds s)))
  /\ (forall u, ls_auth_user (browser (mount rnds s)) = Some u ->
        isValidUUID (Some (User.id u)) = true /\ user (mount rnds s) = Some u).
Proof.
  rewrite mount_eq.
  destruct (migrateUsersToUUID_registry rnds s) as (Hreg & Huser & Hauth & _ & _).
  pose proof (migrate_map_valid rnds 0 (ls_registered_users (browser s))) as Hvalid.
  rewrite <- Hreg in Hvalid.
  set (s1 := fst (migrateUsersToUUID rnds s)) in *.
  set (k := snd (migrateUsersToUUID rnds s)).
  unfold migrateCurrentUser.
  destruct (ls_auth_user (browser s1)) as [userData|] eqn:Hstored.
  - destruct (negb _) eqn:Hbad.
    + cbn [ls_registered_users set_ls_auth_user].
      destruct (list_find _ _) as [[userIndex entry]|]; cbn.
      * split; [apply Forall_insert; [exact Hvalid | apply generateUUID_valid]|].
        intros u [= <-]; split; [apply generateUUID_valid | reflexivity].
      * split; [exact Hvalid|].
        intros u [= <-]; split; [apply generateUUID_valid | reflexivity].
    + cbn. split; [exact Hvalid|].
      intros u Hu. rewrite Hstored in Hu. injection Hu as <-.
      split; [apply negb_false_iff; exact Hbad | reflexivity].
  - split; [exact Hvalid|]. intros u Hu; congruence.
Qed.

(** X22. Once the effect has run, every identifier in the browser is a
    well-formed UUID: those of all registry entries and that of the stored
    session; and a stored session has become the session of the provider.
    Without a stored session the provider keeps the session it had. *)
Theorem mount_repairs_identifiers rnds (s : Session) :
  Forall (fun r => isValidUUID (Some (Registered.id r)) = true)
    (ls_registered_users (browser (mount rnds s)))
  /\ (forall u, ls_auth_user (browser (mount rnds s)) = Some u ->
        isValidUUID (Some (User.id u)) = true /\ user (mount rnds s) = Some u)
  /\ (ls_auth_user (browser s) = None ->
      user (mount rnds s) = user s /\ ls_auth_user (browser (mount rnds s)) = None).
Proof.
  destruct (mount_ids rnds s) as [Hreg Hses].
  split; [exact Hreg|]. split; [exact Hses|].
  intros Hnone. rewrite mount_eq.
  destruct (migrateUsersToUUID_registry rnds s) as (_ & Huser & Hauth & _ & _).
  unfold migrateCurrentUser. rewrite Hauth, Hnone. split; [exact Huser|].
  rewrite Hauth. exact Hnone.
Qed.

(** X23. The effect changes identifiers and nothing else: the user names and
    passwords of the registry, in their order, the password overrides and
    the business records are as before, and a stored session differs from
    the old one at most in its identifier. *)
Theorem mount_keeps_credentials rnds (s : Session) :
  names (mount rnds s) = names s
  /\ Registered.password <$> ls_registered_users (browser (mount rnds s))
     = Registered.password <$> ls_registered_users (browser s)
  /\ ls_admin_passwords (browser (mount rnds s)) = ls_admin_passwords (browser s)
  /\ ls_umkm (browser (mount rnds s)) = ls_umkm (browser s)
  /\ (forall u, ls_auth_user (browser s) = Some u ->
        exists u', ls_auth_user (browser (mount rnds s)) = Some u'
                   /\ User.set_id (User.id u') u = u').
Proof.
  rewrite mount_eq.
  destruct (migrateUsersToUUID_registry rnds s) as (Hreg & Huser & Hauth & Hpw & Humkm).
  destruct (migrate_map_credentials rnds 0 (ls_registered_users (browser s)))
    as [Hnames Hpass].
  rewrite <- Hreg in Hnames, Hpass.
  set (s1 := fst (migrateUsersToUUID rnds s)) in *.
  set (k := snd (migrateUsersToUUID rnds s)).
  unfold names, migrateCurrentUser.
  destruct (ls_auth_user (browser s1)) as [userData|] eqn:Hstored.
  - destruct (negb _).
    + cbn [ls_registered_users set_ls_auth_user].
      destruct (list_find _ _) as [[userIndex entry]|] eqn:Hfind; cbn.
      * apply list_find_Some in Hfind as (Hfind & _).
        rewrite !list_fmap_insert. cbn.
        rewrite (list_insert_id (Registered.username <$> _))
          by (rewrite list_lookup_fmap, Hfind; reflexivity).
        rewrite (list_insert_id (Registered.password <$> _))
          by (rewrite list_lookup_fmap, Hfind; reflexivity).
        repeat (split; [assumption|]).
        intros u Hu. rewrite <- Hauth in Hu. injection Hu as <-. eexists. split; reflexivity.
      * repeat (split; [assumption|]).
        intros u Hu. rewrite <- Hauth in Hu. injection Hu as <-. eexists. split; reflexivity.
    + cbn. repeat (split; [assumption|]).
      intros u Hu. rewrite <- Hauth in Hu. injection Hu as <-.
      exists userData. split; [exact Hstored|]. destruct userData. reflexivity.
  - repeat (split; [assumption|]). intros u Hu. congruence.
Qed.

Lemma mount_settled rnds (s : Session) :
  Forall (fun r => isValidUUID (Some (Registered.id r)) = true)
    (ls_registered_users (browser s)) ->
  (forall u, ls_auth_user (browser s) = Some u ->
     isValidUUID (Some (User.id u)) = true /\ user s = Some u) ->
  mount rnds s = s.
Proof.
  intros Hreg Hses. unfold mount, migrateUsersToUUID.
  rewrite (migrate_map_settled _ _ _ Hreg). cbn. unfold migrateCurrentUser.
  destruct (ls_auth_user (browser s)) as [u|] eqn:Hu; [|reflexivity].
  destruct (Hses u eq_refl) as [Hvalid Huser]. rewrite Hvalid. cbn.
  destruct s as [us b]. cbn in *. rewrite Huser. reflexivity.
Qed.

(** X24. Running the effect a second time, with any random draws, changes
    nothing: what it repairs stays repaired. *)
Theorem mount_idempotent rnds rnds' (s : Session) :
  mount rnds' (mount rnds s) = mount rnds s.
Proof.
  destruct (mount_ids rnds s) as (Hreg & Hses).
  apply mount_settled; assumption.
Qed.

(** The effect on the sample browser: Budi's entry and Budi's session leave
    with one and the same fresh identifier, Sari's entry is not touched. *)
Example mount_legacy :
  User.id <$> user (mount draws legacy) = Some "22222222-2222-4222-a222-222222222222"
  /\ Registered.id <$> ls_registered_users (browser (mount draws legacy))
     = ["77777777-7777-4777-b777-777777777777"; "22222222-2222-4222-a222-222222222222"].
Proof. split; vm_compute; reflexivity. Qed.

(** X25. When the stored session had an identifier that is not a UUID, the
    effect gives the same fresh identifier to the session and to the first
    registry entry under the session's user name, so that the entry can
    still be found from the session by its identifier, as [changePassword]
    does. *)
Theorem mount_links_session_to_registry rnds (s : Session) u i entry :
  ls_auth_user (browser s) = Some u ->
  isValidUUID (Some (User.id u)) = false ->
  list_find (fun r => Registered.username r = User.username u)
    (ls_registered_users (browser (mount rnds s))) = Some (i, entry) ->
  exists u',
    user (mount rnds s) = Some u'
    /\ User.username u' = User.username u
    /\ Registered.id entry = User.id u'
    /\ isValidUUID (Some (User.id u')) = true.
Proof.
  intros Hu Hbad. rewrite mount_eq.
  destruct (migrateUsersToUUID_registry rnds s) as (_ & _ & Hauth & _ & _).
  set (s1 := fst (migrateUsersToUUID rnds s)) in *.
  set (k := snd (migrateUsersToUUID rnds s)).
  unfold migrateCurrentUser. rewrite Hauth, Hu, Hbad. cbn [negb].
  cbn [ls_registered_users set_ls_auth_user User.username User.set_id User.id].
  destruct (list_find _ (ls_registered_users (browser s1)))
    as [[userIndex found]|] eqn:Hfind; cbn [browser ls_registered_users set_ls_registered_users].
  - intros Hentry. pose proof Hfind as Hfind'.
    apply list_find_Some in Hfind' as (Hlook & Hname & Hfirst).
    assert (Hnew : list_find (fun r => Registered.username r = User.username u)
                     (<[userIndex := Registered.set_id (generateUUID (rnds k)) found]>
                        (ls_registered_users (browser s1)))
                   = Some (userIndex, Registered.set_id (generateUUID (rnds k)) found)).
    { apply list_find_Some. split; [|split].
      - apply list_lookup_insert_eq. eapply lookup_lt_Some. exact Hlook.
      - exact Hname.
      - intros j y Hj Hlt. rewrite list_lookup_insert_ne in Hj by lia.
        exact (Hfirst j y Hj Hlt). }
    rewrite Hnew in Hentry. injection Hentry as <- <-.
    eexists. split; [reflexivity|]. split; [reflexivity|].
    cbn [Registered.id Registered.set_id Registered.user User.id User.set_id].
    split; [reflexivity | apply generateUUID_valid].
  - intros Hentry. cbn [browser ls_registered_users set_ls_auth_user] in Hentry.
    rewrite Hfind in Hentry. discriminate.
Qed.

Lemma mount_links_session_to_registry_witness :
  ls_auth_user (browser legacy) = Some (Registered.user budi_legacy)
  /\ isValidUUID (Some (User.id (Registered.user budi_legacy))) = false
  /\ exists entry u',
      list_find (fun r => Registered.username r = "budi")
        (ls_registered_users (browser (mount draws legacy))) = Some (1, entry)
      /\ user (mount draws legacy) = Some u'
      /\ Registered.id entry = User.id u'
      /\ success (fst (changePassword "rahasia1" "baru1234" noon (mount draws legacy))) = true.
Proof.
  assert (H1 : ls_auth_user (browser legacy) = Some (Registered.user budi_legacy))
    by reflexivity.
  assert (H2 : isValidUUID (Some (User.id (Registered.user budi_legacy))) = false)
    by reflexivity.
  assert (H3 : list_find (fun r => Registered.username r
                                   = User.username (Registered.user budi_legacy))
                 (ls_registered_users (browser (mount draws legacy)))
               = Some (1, Registered.set_id "22222222-2222-4222-a222-222222222222"
                            budi_legacy)) by (vm_compute; reflexivity).
  destruct (mount_links_session_to_registry draws legacy (Registered.user budi_legacy) 1 _
              H1 H2 H3) as (u' & Hu' & _ & Hid & _).
  split; [exact H1|]. split; [exact H2|].
  eexists. exists u'. split; [exact H3|]. split; [exact Hu'|]. split; [exact Hid|].
  vm_compute. reflexivity.
Defined.
